(** * Shapefile-Converter: the flattening converter of [shapefile_reader.py]

    A shallow embedding of [convert_shapefile_to_csv] and [main].  The
    program is glue around geopandas, pandas, shapely and pathlib, so the
    embedding has two layers:

    - what the script itself decides (the existence test, the CRS test, the
      branches over [coord_format], the clean-up loop, the exception
      wrapping, the exit code) is written out as executable definitions;
    - what the libraries compute numerically or textually (projection maths,
      centroids, WKT, float formatting, [Path.with_suffix]) is a field of
      the record [Library], left abstract.

    Between the two lie the data-frame operations the script calls.  They
    are modelled after the libraries' documented behaviour:

    - [df[name] = s] overwrites the column of that label where it stands,
      and appends the column when the label is new;
    - [df.drop(columns=[name])] raises KeyError when the label is missing;
    - [s.iloc[0]] raises IndexError on an empty Series;
    - the geometry column of a GeoDataFrame has geopandas' extension dtype,
      whose name is ['geometry']: comparing it with ['object'] is false;
    - [GeoSeries.x] and [GeoSeries.y] raise ValueError unless every
      geometry that is present is a Point, and give nan for a missing one;
    - [to_csv] writes a missing value as the empty field and a geometry as
      its [str]; [read_csv] raises EmptyDataError on a file without header
      fields.

    What differs between versions of pandas (the dtype name of a text
    column, what [astype(str)] makes of a missing value) is taken from the
    record [Library] as well. *)

From Stdlib Require Import List String Ascii ZArith Bool Arith Lia DecimalString.
Import ListNotations.
Open Scope string_scope.
Open Scope list_scope.
Set Warnings "-register-all".

(** ** Exceptions *)

Inductive exn_class :=
| FileNotFoundError
| ValueError
| KeyError
| IndexError
| AttributeError
| OSError
| EmptyDataError
| Exception.      (* a bare [Exception(...)], as raised by the wrappers *)

(** An exception object: its class and [str(e)]. *)
Record exn := mkExn { exn_kind : exn_class; exn_str : string }.

Inductive result (A : Type) :=
| Ok (a : A)
| Raise (e : exn).
Arguments Ok {A} a.
Arguments Raise {A} e.

Definition bind {A B} (m : result A) (k : A -> result B) : result B :=
  match m with
  | Ok a => k a
  | Raise e => Raise e
  end.

Notation "x <- m ;; k" := (bind m (fun x => k))
  (at level 61, m at next level, right associativity).

Definition exn_class_eqb (a b : exn_class) : bool :=
  match a, b with
  | FileNotFoundError, FileNotFoundError
  | ValueError, ValueError
  | KeyError, KeyError
  | IndexError, IndexError
  | AttributeError, AttributeError
  | OSError, OSError
  | EmptyDataError, EmptyDataError
  | Exception, Exception => true
  | _, _ => false
  end.

(** [try: body  except (c1, c2, ...): pass], for a body that yields the
    frame the loop goes on with: a handled exception keeps [dflt]. *)
Definition try_pass {A} (body : result A) (handled : list exn_class) (dflt : A)
  : result A :=
  match body with
  | Ok a => Ok a
  | Raise e =>
      if existsb (exn_class_eqb (exn_kind e)) handled then Ok dflt else Raise e
  end.

(** [try: body  except Exception as e: raise Exception(prefix + str(e))].
    Every class above derives from [Exception]. *)
Definition wrap_exception {A} (prefix : string) (body : result A) : result A :=
  match body with
  | Ok a => Ok a
  | Raise e => Raise (mkExn Exception (prefix ++ exn_str e))
  end.

Definition newline : string := String (ascii_of_nat 10) EmptyString.

(** ** Geometries, cells, columns, frames *)

Section Model.

(** [coord]: a 64-bit float; [scalar]: an attribute value as the reader
    delivers it (integer, real, text, date, null); [crs]: a pyproj CRS. *)
Context {coord scalar crs : Type}.

Definition xy : Type := coord * coord.

(** The shapely geometry classes a vector file can hold. *)
Inductive geometry :=
| Point (x y : coord)
| LineString (pts : list xy)
| Polygon (shell : list xy) (holes : list (list xy))
| MultiPoint (pts : list xy)
| MultiLineString (lines : list (list xy))
| MultiPolygon (polys : list (list xy * list (list xy)))
| GeometryCollection (parts : list geometry).

(** [geom.geom_type] *)
Definition geom_type (g : geometry) : string :=
  match g with
  | Point _ _ => "Point"
  | LineString _ => "LineString"
  | Polygon _ _ => "Polygon"
  | MultiPoint _ => "MultiPoint"
  | MultiLineString _ => "MultiLineString"
  | MultiPolygon _ => "MultiPolygon"
  | GeometryCollection _ => "GeometryCollection"
  end.

Definition is_point (g : geometry) : bool :=
  match g with
  | Point _ _ => true
  | _ => false
  end.

(** Applying a coordinate transformation to every vertex: what
    [to_crs] does to one geometry. *)
Fixpoint map_geometry (f : xy -> xy) (g : geometry) : geometry :=
  match g with
  | Point x y => let (x', y') := f (x, y) in Point x' y'
  | LineString pts => LineString (map f pts)
  | Polygon shell holes => Polygon (map f shell) (map (map f) holes)
  | MultiPoint pts => MultiPoint (map f pts)
  | MultiLineString lines => MultiLineString (map (map f) lines)
  | MultiPolygon polys =>
      MultiPolygon (map (fun p => (map f (fst p), map (map f) (snd p))) polys)
  | GeometryCollection parts => GeometryCollection (map (map_geometry f) parts)
  end.

(** What the script takes from its libraries without looking inside. *)
Record Library := {
  nan : coord;                          (* float('nan') *)
  wgs84 : crs;                          (* CRS.from_user_input('EPSG:4326') *)
  to_epsg : crs -> option Z;            (* crs.to_epsg(), None when no code matches *)
  transform : crs -> xy -> xy;          (* the projection from a CRS to EPSG:4326 *)
  centroid : geometry -> xy;            (* shapely centroid; (nan, nan) when empty *)
  to_wkt : geometry -> string;          (* an element of GeoSeries.to_wkt() *)
  geom_str : geometry -> string;        (* str(geom): the WKT shapely prints *)
  scalar_str : scalar -> option string;
    (* an attribute value under astype(str): its str, None where pandas
       keeps the value missing *)
  float_str : coord -> option string;   (* the same for a float *)
  none_str : option string;
    (* None under astype(str): the text 'None' (pandas 2), or None where the
       value stays missing (pandas 3) *)
  astype_str_dtype : string;
    (* the dtype astype(str) gives: 'object' (pandas 2), 'str' (pandas 3) *)
  geom_type_dtype : string;             (* the dtype of GeoSeries.geom_type *)
  to_wkt_dtype : string;                (* the dtype of GeoSeries.to_wkt() *)
  scalar_csv : scalar -> string;        (* an attribute value as to_csv writes it *)
  float_csv : coord -> string;          (* a float as to_csv writes it; empty for nan *)
  with_suffix_csv : string -> option string
    (* str(Path(p).with_suffix('.csv')); None where pathlib raises ValueError
       because the path has an empty name *)
}.

Variable L : Library.

(** A cell of a data frame. *)
Inductive cell :=
| VScalar (v : scalar)
| VFloat (x : coord)
| VStr (s : string)
| VNone
| VGeom (g : geometry).

(** A column: label, dtype name, cells.  The dtype is kept by name because
    the script compares it with the string ['object']. *)
Record column := mkColumn {
  cname : string;
  cdtype : string;
  cdata : list cell
}.

(** A frame: the length of its index and its columns, in order. *)
Record frame := mkFrame {
  index_len : nat;
  columns : list column
}.

Definition names (df : frame) : list string := map cname (columns df).

(** *** Frame operations *)

Definition has_column (name : string) (df : frame) : bool :=
  existsb (fun c => cname c =? name) (columns df).

(** [df[name]] as a Series (the first column carrying the label). *)
Definition get_column (name : string) (df : frame) : option column :=
  find (fun c => cname c =? name) (columns df).

(** Storing a column under its label: an existing label is overwritten
    where it stands, a new label becomes the last column. *)
Definition put c cols : list column :=
  if existsb (fun d => cname d =? cname c) cols
  then map (fun d => if cname d =? cname c then c else d) cols
  else cols ++ [c].

(** [df[name] = series] *)
Definition setitem (name dtype : string) (data : list cell) (df : frame)
  : frame :=
  mkFrame (index_len df) (put (mkColumn name dtype data) (columns df)).

(** [df.drop(columns=[name])]: KeyError when the label is not there. *)
Definition drop (name : string) (df : frame) : result frame :=
  if has_column name df
  then Ok (mkFrame (index_len df)
             (filter (fun c => negb (cname c =? name)) (columns df)))
  else Raise (mkExn KeyError ("['" ++ name ++ "'] not found in axis")).

(** [series.iloc[0]]: IndexError on an empty Series. *)
Definition iloc0 (c : column) : result cell :=
  match cdata c with
  | v :: _ => Ok v
  | [] => Raise (mkExn IndexError "single positional indexer is out-of-bounds")
  end.

(** [hasattr(v, 'geom_type')]: only shapely geometries have the attribute. *)
Definition has_geom_type (v : cell) : bool :=
  match v with
  | VGeom _ => true
  | _ => false
  end.

Definition text_or_missing (o : option string) : cell :=
  match o with
  | Some s => VStr s
  | None => VNone
  end.

(** A cell under [astype(str)]: a geometry becomes the text of its [str]. *)
Definition str_cell (v : cell) : cell :=
  match v with
  | VScalar s => text_or_missing (scalar_str L s)
  | VFloat x => text_or_missing (float_str L x)
  | VStr s => VStr s
  | VNone => text_or_missing (none_str L)
  | VGeom g => VStr (geom_str L g)
  end.

(** [series.astype(str)] *)
Definition astype_str (c : column) : column :=
  mkColumn (cname c) (astype_str_dtype L) (map str_cell (cdata c)).

(** *** The GeoDataFrame the reader returns *)

Record attr_column := mkAttr {
  aname : string;
  adtype : string;
  avalues : list scalar
}.

(** Attribute columns in file order, one geometry per feature ([None] for a
    feature without shape), one CRS for the whole set.  The reader stores
    the geometries as the last column, labelled ['geometry'], whose dtype
    is geopandas' own extension dtype, named ['geometry'] (not ['object']). *)
Record GeoDataFrame := mkGdf {
  gdf_crs : option crs;
  gdf_attrs : list attr_column;
  gdf_geometry : list (option geometry)
}.

Definition attr_names (gdf : GeoDataFrame) : list string :=
  map aname (gdf_attrs gdf).

(** [len(gdf)] *)
Definition num_features (gdf : GeoDataFrame) : nat :=
  List.length (gdf_geometry gdf).

Definition column_of_attr (a : attr_column) : column :=
  mkColumn (aname a) (adtype a) (map VScalar (avalues a)).

Definition geometry_cell (og : option geometry) : cell :=
  match og with
  | Some g => VGeom g
  | None => VNone
  end.

Definition geometry_column (gs : list (option geometry)) : column :=
  mkColumn "geometry" "geometry" (map geometry_cell gs).

(** [gdf.copy()] seen as a frame. *)
Definition frame_of (gdf : GeoDataFrame) : frame :=
  mkFrame (num_features gdf)
    (map column_of_attr (gdf_attrs gdf) ++ [geometry_column (gdf_geometry gdf)]).

(** What the reader guarantees of the attribute table: distinct field
    names, none of them the label of the geometry column, and one value per
    feature in every column. *)
Record valid_gdf (gdf : GeoDataFrame) : Prop := {
  names_distinct : NoDup (attr_names gdf);
  geometry_reserved : ~ In "geometry" (attr_names gdf);
  rows_aligned :
    Forall (fun a => List.length (avalues a) = num_features gdf) (gdf_attrs gdf)
}.

(** *** GeoSeries accessors *)

Definition cell_geometry (v : cell) : option geometry :=
  match v with
  | VGeom g => Some g
  | _ => None
  end.

(** [df.geometry]: the active geometry column. *)
Definition geometry_series (df : frame) : result (list (option geometry)) :=
  match get_column "geometry" df with
  | Some c => Ok (map cell_geometry (cdata c))
  | None =>
      Raise (mkExn AttributeError
               "You are calling a geospatial method on the GeoDataFrame, but the active geometry column ('geometry') is not present.")
  end.

(** [series.geom_type]: the type name, [None] for a missing geometry. *)
Definition geom_type_series (gs : list (option geometry))
  : list (option string) :=
  map (option_map geom_type) gs.

Definition type_eqb (a b : option string) : bool :=
  match a, b with
  | Some s, Some t => s =? t
  | None, None => true
  | _, _ => false
  end.

(** [series.unique()]: the distinct values in order of first appearance. *)
Fixpoint unique (ts : list (option string)) : list (option string) :=
  match ts with
  | [] => []
  | t :: r => t :: filter (fun u => negb (type_eqb u t)) (unique r)
  end.

(** ['Point' in array] *)
Definition contains (s : string) (ts : list (option string)) : bool :=
  existsb (type_eqb (Some s)) ts.

Definition all_points_or_missing (gs : list (option geometry)) : bool :=
  forallb (fun og => match og with
                     | Some g => is_point g
                     | None => true
                     end) gs.

(** Whether some feature is a Point. *)
Definition has_point (gs : list (option geometry)) : bool :=
  existsb (fun og => match og with
                     | Some g => is_point g
                     | None => false
                     end) gs.

Definition x_of (og : option geometry) : coord :=
  match og with
  | Some (Point x _) => x
  | _ => nan L
  end.

Definition y_of (og : option geometry) : coord :=
  match og with
  | Some (Point _ y) => y
  | _ => nan L
  end.

Definition only_points : exn :=
  mkExn ValueError "x attribute access only provided for Point geometries".

(** [series.x]: defined only when every geometry that is present is a
    Point; a missing geometry gives nan; otherwise ValueError. *)
Definition series_x (gs : list (option geometry)) : result (list cell) :=
  if all_points_or_missing gs
  then Ok (map (fun og => VFloat (x_of og)) gs)
  else Raise only_points.

Definition series_y (gs : list (option geometry)) : result (list cell) :=
  if all_points_or_missing gs
  then Ok (map (fun og => VFloat (y_of og)) gs)
  else Raise (mkExn ValueError
                "y attribute access only provided for Point geometries").

(** [series.centroid]: a Point per geometry, missing stays missing. *)
Definition centroid_series (gs : list (option geometry))
  : list (option geometry) :=
  map (option_map (fun g => let (x, y) := centroid L g in Point x y)) gs.

Definition text_cell (o : option string) : cell :=
  match o with
  | Some s => VStr s
  | None => VNone
  end.

(** [series.to_wkt()] *)
Definition to_wkt_series (gs : list (option geometry)) : list cell :=
  map (fun og => text_cell (option_map (to_wkt L) og)) gs.

(** ** The converter *)

(** [gdf.to_crs('EPSG:4326')] for a frame whose CRS is [c]. *)
Definition to_crs (c : crs) (gdf : GeoDataFrame) : GeoDataFrame :=
  mkGdf (Some (wgs84 L)) (gdf_attrs gdf)
        (map (option_map (map_geometry (transform L c))) (gdf_geometry gdf)).

(** [code != 4326], where [code] may be [None]. *)
Definition epsg_differs (code : option Z) (n : Z) : bool :=
  match code with
  | Some m => negb (m =? n)%Z
  | None => true
  end.

(** Lines 67-68.  A CRS object is truthy, [None] is not. *)
Definition handle_crs (gdf : GeoDataFrame) : GeoDataFrame :=
  match gdf_crs gdf with
  | Some c => if epsg_differs (to_epsg L c) 4326 then to_crs c gdf else gdf
  | None => gdf
  end.

(** Lines 74-105: the branch over [coord_format]. *)
Definition flatten (include_geometry : bool) (coord_format : string)
  (df : frame) : result frame :=
  if (coord_format =? "none") || negb include_geometry then
    drop "geometry" df
  else if coord_format =? "separate" then
    g <- geometry_series df ;;
    let geom_types := unique (geom_type_series g) in
    df <- (if contains "Point" geom_types then
             g <- geometry_series df ;;
             xs <- series_x g ;;
             let df := setitem "longitude" "float64" xs df in
             g <- geometry_series df ;;
             ys <- series_y g ;;
             Ok (setitem "latitude" "float64" ys df)
           else
             g <- geometry_series df ;;
             let centroids := centroid_series g in
             xs <- series_x centroids ;;
             let df := setitem "longitude" "float64" xs df in
             ys <- series_y centroids ;;
             let df := setitem "latitude" "float64" ys df in
             g <- geometry_series df ;;
             Ok (setitem "geometry_type" (geom_type_dtype L)
                   (map text_cell (geom_type_series g)) df)) ;;
    drop "geometry" df
  else if coord_format =? "centroid" then
    g <- geometry_series df ;;
    let centroids := centroid_series g in
    xs <- series_x centroids ;;
    let df := setitem "longitude" "float64" xs df in
    ys <- series_y centroids ;;
    let df := setitem "latitude" "float64" ys df in
    g <- geometry_series df ;;
    let df := setitem "geometry_type" (geom_type_dtype L)
                (map text_cell (geom_type_series g)) df in
    drop "geometry" df
  else if coord_format =? "wkt" then
    g <- geometry_series df ;;
    let df := setitem "geometry_wkt" (to_wkt_dtype L) (to_wkt_series g) df in
    g <- geometry_series df ;;
    let df := setitem "geometry_type" (geom_type_dtype L)
                (map text_cell (geom_type_series g)) df in
    drop "geometry" df
  else
    Ok df.

(** Lines 109-114: the body of the clean-up loop for the label [col].
    Only a column whose dtype is ['object'] is looked at. *)
Definition scan_step (df : frame) (col : string) : result frame :=
  match get_column col df with
  | None => Raise (mkExn KeyError col)
  | Some s =>
      if cdtype s =? "object" then
        try_pass
          (v <- iloc0 s ;;
           if has_geom_type v
           then Ok (setitem col (cdtype (astype_str s)) (cdata (astype_str s)) df)
           else Ok df)
          [IndexError; AttributeError] df
      else Ok df
  end.

Fixpoint scan_loop (cols : list string) (df : frame) : result frame :=
  match cols with
  | [] => Ok df
  | col :: rest => df <- scan_step df col ;; scan_loop rest df
  end.

(** Lines 108-114: [for col in df.columns: ...]; the labels are those of
    the frame when the loop starts. *)
Definition cleanup (df : frame) : result frame :=
  scan_loop (names df) df.

(** Lines 67-114: the table handed to the writer. *)
Definition output_table (include_geometry : bool) (coord_format : string)
  (gdf : GeoDataFrame) : result frame :=
  df <- flatten include_geometry coord_format (frame_of (handle_crs gdf)) ;;
  cleanup df.

(** Lines 71-114 on their own: the table built from a layer as it stands,
    without the CRS step. *)
Definition flat_table (include_geometry : bool) (coord_format : string)
  (gdf : GeoDataFrame) : result frame :=
  df <- flatten include_geometry coord_format (frame_of gdf) ;;
  cleanup df.

(** *** Files, standard output, the writer *)

(** A CSV file, as the tabular reader sees it: the header and the records. *)
Record csv_table := mkCsv {
  header : list string;
  rows : list (list string)
}.

Inductive file :=
| Dataset (gdf : GeoDataFrame)     (* a vector dataset the reader can load *)
| Unreadable (e : exn)             (* a file the reader fails on, with [e] *)
| CsvFile (t : csv_table).

(** What [print] sends to standard output. *)
Inductive output :=
| Line (s : string)
| Loaded (n : nat)                           (* Successfully loaded {n} features *)
| GeometryTypes (ts : list (option string))  (* Geometry type(s): {array} *)
| CrsLine (c : option crs)                   (* Coordinate Reference System: {crs} *)
| Saved (path : string)                      (* Successfully saved CSV to: {path} *)
| ShapeLine (nrows ncols : nat)              (* CSV shape: {df.shape} *)
| ColumnsLine (ns : list string)             (* Columns: {list(df.columns)} *)
| Preview (t : csv_table).                   (* df.head().to_string() *)

(** Why a write fails and what it leaves at the destination: the file as it
    was when it could not be opened, a truncated file when the failure came
    after the open. *)
Record write_failure := mkFailure {
  failure_exn : exn;
  failure_leaves : option csv_table
}.

Record world := mkWorld {
  files : string -> option file;
  write_error : string -> option write_failure;  (* how a write to a path fails, if so *)
  stdout : list output
}.

Definition IO (A : Type) : Type := world -> result A * world.

Definition io_bind {A B} (m : IO A) (k : A -> IO B) : IO B :=
  fun w => match m w with
           | (Ok a, w') => k a w'
           | (Raise e, w') => (Raise e, w')
           end.

Notation "x <~ m ;; k" := (io_bind m (fun x => k))
  (at level 61, m at next level, right associativity).

Definition io_ret {A} (a : A) : IO A := fun w => (Ok a, w).

Definition lift {A} (r : result A) : IO A := fun w => (r, w).

Definition print (o : output) : IO unit :=
  fun w => (Ok tt, mkWorld (files w) (write_error w) (stdout w ++ [o])).

(** [os.path.exists(p)] *)
Definition path_exists (w : world) (p : string) : bool :=
  match files w p with
  | Some _ => true
  | None => false
  end.

(** [gpd.read_file(p)].  A CSV file loads as a plain table: the first
    progress line is printed, and the next one asks the table for a
    geometry it does not have. *)
Definition read_file (p : string) : IO GeoDataFrame :=
  fun w => match files w p with
           | Some (Dataset gdf) => (Ok gdf, w)
           | Some (Unreadable e) => (Raise e, w)
           | Some (CsvFile t) =>
               (Raise (mkExn AttributeError
                         "'DataFrame' object has no attribute 'geometry'"),
                mkWorld (files w) (write_error w)
                  (stdout w ++ [Loaded (List.length (rows t))]))
           | None =>
               (Raise (mkExn OSError (p ++ ": No such file or directory")), w)
           end.

(** A cell as [to_csv] writes it: missing values are empty, a geometry is
    written as its [str]. *)
Definition cell_csv (v : cell) : string :=
  match v with
  | VScalar s => scalar_csv L s
  | VFloat x => float_csv L x
  | VStr s => s
  | VNone => ""
  | VGeom g => geom_str L g
  end.

Definition csv_row (df : frame) (i : nat) : list string :=
  map (fun c => cell_csv (nth i (cdata c) VNone)) (columns df).

(** The header is the column labels, one record per index entry, no index
    column ([index=False]). *)
Definition csv_of_frame (df : frame) : csv_table :=
  mkCsv (names df) (map (csv_row df) (seq 0 (index_len df))).

Definition write_file (p : string) (f : file) (w : world) : world :=
  mkWorld (fun q => if q =? p then Some f else files w q)
          (write_error w) (stdout w).

(** [df.to_csv(path, index=False)] *)
Definition to_csv (df : frame) (path : string) : IO unit :=
  fun w => match write_error w path with
           | Some f =>
               (Raise (failure_exn f),
                match failure_leaves f with
                | Some t => write_file path (CsvFile t) w
                | None => w
                end)
           | None => (Ok tt, write_file path (CsvFile (csv_of_frame df)) w)
           end.

(** [pd.read_csv(path)].  The file is kept as a table, not as text: the
    reader returns the header and the records the writer stored.  A file
    without a single column holds blank lines only, on which the reader
    raises EmptyDataError. *)
Definition read_csv (path : string) : IO csv_table :=
  fun w => match files w path with
           | Some (CsvFile t) =>
               match header t with
               | [] => (Raise (mkExn EmptyDataError
                                 "No columns to parse from file"), w)
               | _ :: _ => (Ok t, w)
               end
           | _ => (Raise (mkExn OSError (path ++ ": cannot be parsed as CSV")), w)
           end.

(** [try: io  except Exception as e: raise Exception(prefix + str(e))] *)
Definition io_wrap {A} (prefix : string) (m : IO A) : IO A :=
  fun w => let (r, w') := m w in (wrap_exception prefix r, w').

(** Lines 27-124. *)
Definition convert_shapefile_to_csv (shp_path : string)
  (csv_path : option string) (include_geometry : bool) (coord_format : string)
  : IO string :=
  fun w =>
  if negb (path_exists w shp_path) then
    (Raise (mkExn FileNotFoundError ("Shapefile not found: " ++ shp_path)), w)
  else
    (gdf <~ io_wrap "Error reading shapefile: "
              (gdf <~ read_file shp_path ;;
               _ <~ print (Loaded (num_features gdf)) ;;
               _ <~ print (GeometryTypes
                             (unique (geom_type_series (gdf_geometry gdf)))) ;;
               _ <~ print (CrsLine (gdf_crs gdf)) ;;
               io_ret gdf) ;;
     csv_path <~ lift (match csv_path with
                       | Some p => Ok p
                       | None =>
                           match with_suffix_csv L shp_path with
                           | Some p => Ok p
                           | None => Raise (mkExn ValueError
                                              (shp_path ++ " has an empty name"))
                           end
                       end) ;;
     df <~ lift (output_table include_geometry coord_format gdf) ;;
     io_wrap "Error saving CSV file: "
       (_ <~ to_csv df csv_path ;;
        _ <~ print (Saved csv_path) ;;
        _ <~ print (ShapeLine (index_len df) (List.length (columns df))) ;;
        _ <~ print (ColumnsLine (names df)) ;;
        io_ret csv_path)) w.

(** The parsed command line. *)
Record arguments := mkArgs {
  shapefile : string;
  output_path : option string;      (* -o / --output *)
  coord_format_arg : string;        (* --coord-format, default 'separate' *)
  no_geometry : bool                (* --no-geometry *)
}.

(** Lines 162-180: the exit status and the world the process leaves, for
    the arguments [parse_args] returned on line 160.  A command line that
    argparse refuses, or one that asks for help, ends the process there and
    never reaches these lines. *)
Definition main (args : arguments) (w : world) : Z * world :=
  match (let include_geometry := negb (no_geometry args) in
         csv_path <~ convert_shapefile_to_csv (shapefile args) (output_path args)
                       include_geometry (coord_format_arg args) ;;
         _ <~ print (Line (newline ++ "Conversion completed successfully!")) ;;
         _ <~ print (Line ("Output file: " ++ csv_path)) ;;
         df <~ read_csv csv_path ;;
         _ <~ print (Line (newline ++ "Preview of first 5 rows:")) ;;
         print (Preview (mkCsv (header df) (firstn 5 (rows df))))) w with
  | (Ok _, w') => (0%Z, w')
  | (Raise e, w') =>
      (1%Z, mkWorld (files w') (write_error w')
              (stdout w' ++ [Line ("Error: " ++ exn_str e)]))
  end.

(** ** The coordinate policy as the specification words it *)

(** The derived columns of the policy table, for a recognised mode. *)
Definition policy_derived (coord_mode : string) (any_point : bool)
  : list string :=
  if coord_mode =? "none" then []
  else if coord_mode =? "separate" then
    if any_point then ["longitude"; "latitude"]
    else ["longitude"; "latitude"; "geometry_type"]
  else if coord_mode =? "centroid" then
    ["longitude"; "latitude"; "geometry_type"]
  else if coord_mode =? "wkt" then ["geometry_wkt"; "geometry_type"]
  else [].

(** "Apply the coordinate policy ... to append zero or more derived
    columns": the policy is "only reached when include_geometry is true". *)
Definition policy_extra (include_geometry : bool) (coord_mode : string)
  (gdf : GeoDataFrame) : list string :=
  if include_geometry
  then policy_derived coord_mode (has_point (gdf_geometry gdf))
  else [].

(** "Start with all non-geometry attribute columns, preserving their
    original order", then append the derived ones. *)
Definition policy_columns (include_geometry : bool) (coord_mode : string)
  (gdf : GeoDataFrame) : list string :=
  attr_names gdf ++ policy_extra include_geometry coord_mode gdf.

Definition known_mode (coord_format : string) : bool :=
  (coord_format =? "separate") || (coord_format =? "wkt") ||
  (coord_format =? "centroid") || (coord_format =? "none").

(** ** Notions used to state what the loops compute *)

Definition not_geometry (c : column) : bool := negb (cname c =? "geometry").

(** The columns [drop(columns=['geometry'])] keeps. *)
Definition kept (df : frame) : list column := filter not_geometry (columns df).

(** Whether the clean-up loop rewrites a column: object dtype and a first
    cell that is a geometry. *)
Definition scanned (c : column) : bool :=
  (cdtype c =? "object") &&
  match cdata c with
  | v :: _ => has_geom_type v
  | [] => false
  end.

Definition scan_column (c : column) : column :=
  if scanned c then astype_str c else c.

(** The columns the branches derive from a geometry series. *)
Definition longitude_of (gs : list (option geometry)) : column :=
  mkColumn "longitude" "float64" (map (fun og => VFloat (x_of og)) gs).

Definition latitude_of (gs : list (option geometry)) : column :=
  mkColumn "latitude" "float64" (map (fun og => VFloat (y_of og)) gs).

Definition geometry_type_of (gs : list (option geometry)) : column :=
  mkColumn "geometry_type" (geom_type_dtype L)
    (map text_cell (geom_type_series gs)).

Definition geometry_wkt_of (gs : list (option geometry)) : column :=
  mkColumn "geometry_wkt" (to_wkt_dtype L) (to_wkt_series gs).

(** What a recognised branch stores, in the order it stores it. *)
Definition derived (include_geometry : bool) (coord_format : string)
  (gs : list (option geometry)) : result (list column) :=
  if (coord_format =? "none") || negb include_geometry then Ok []
  else if coord_format =? "separate" then
    if has_point gs then
      if all_points_or_missing gs
      then Ok [longitude_of gs; latitude_of gs]
      else Raise only_points
    else Ok [longitude_of (centroid_series gs);
             latitude_of (centroid_series gs); geometry_type_of gs]
  else if coord_format =? "centroid" then
    Ok [longitude_of (centroid_series gs);
        latitude_of (centroid_series gs); geometry_type_of gs]
  else if coord_format =? "wkt" then
    Ok [geometry_wkt_of gs; geometry_type_of gs]
  else Ok [].

Definition puts (cs cols : list column) : list column :=
  fold_left (fun acc c => put c acc) cs cols.

(** A label that is not among [ns]. *)
Definition absent_from (ns : list string) (n : string) : bool :=
  negb (existsb (String.eqb n) ns).

(** The destination: the path given, or the source path with its suffix
    replaced. *)
Definition destination (shp_path : string) (csv_path : option string)
  : option string :=
  match csv_path with
  | Some p => Some p
  | None => with_suffix_csv L shp_path
  end.

End Model.

Arguments xy : clear implicits.
Arguments geometry : clear implicits.
Arguments Library : clear implicits.
Arguments cell : clear implicits.
Arguments column : clear implicits.
Arguments frame : clear implicits.
Arguments attr_column : clear implicits.
Arguments GeoDataFrame : clear implicits.
Arguments file : clear implicits.
Arguments output : clear implicits.
Arguments world : clear implicits.
Arguments IO : clear implicits.

(** ** A small concrete setting

    Integer coordinates, text attributes, a CRS known by its EPSG code
    (0: a CRS no code matches).  Used for the examples below. *)

Module Demo.

Definition show (z : Z) : string :=
  DecimalString.NilZero.string_of_int (Z.to_int z).

Definition show_xy (p : xy Z) : string := show (fst p) ++ " " ++ show (snd p).

Definition mean (pts : list (xy Z)) : xy Z :=
  match pts with
  | [] => (-1, -1)%Z
  | _ => ((fold_right Z.add 0 (map fst pts) / Z.of_nat (List.length pts))%Z,
          (fold_right Z.add 0 (map snd pts) / Z.of_nat (List.length pts))%Z)
  end.

Definition wkt (g : geometry Z) : string :=
  match g with
  | Point x y => "POINT (" ++ show_xy (x, y) ++ ")"
  | LineString pts => "LINESTRING (" ++ concat ", " (map show_xy pts) ++ ")"
  | Polygon shell _ => "POLYGON ((" ++ concat ", " (map show_xy shell) ++ "))"
  | g => geom_type g
  end.

Definition replace_suffix (p : string) : option string :=
  let n := String.length p in
  if (n =? 0)%nat then None
  else if (4 <=? n)%nat && (substring (n - 4) 4 p =? ".shp")
       then Some (substring 0 (n - 4) p ++ ".csv")%string
       else Some (p ++ ".csv")%string.

Definition lib : Library Z string Z := {|
  nan := (-1)%Z;
  wgs84 := 4326%Z;
  to_epsg := fun c => if (c =? 0)%Z then None else Some c;
  transform := fun _ p => ((fst p / 1000)%Z, (snd p / 1000)%Z);
  centroid := fun g => match g with
                       | Point x y => (x, y)
                       | LineString pts => mean pts
                       | Polygon shell _ => mean shell
                       | MultiPoint pts => mean pts
                       | _ => ((-1)%Z, (-1)%Z)
                       end;
  to_wkt := wkt;
  geom_str := wkt;
  scalar_str := fun s => Some s;
  float_str := fun x => Some (show x);
  none_str := Some "None";
  astype_str_dtype := "object";
  geom_type_dtype := "object";
  to_wkt_dtype := "object";
  scalar_csv := fun s => s;
  float_csv := show;
  with_suffix_csv := replace_suffix
|}.

(** Three towns, already in EPSG:4326. *)
Definition towns : GeoDataFrame Z string Z :=
  mkGdf (Some 4326%Z)
        [mkAttr "name" "object" ["a"; "b"; "c"]]
        [Some (Point 1 2); Some (Point 3 4); Some (Point 5 6)]%Z.

(** The same towns in a projected CRS. *)
Definition towns_utm : GeoDataFrame Z string Z :=
  mkGdf (Some 32633%Z)
        [mkAttr "name" "object" ["a"; "b"; "c"]]
        [Some (Point 1000 2000); Some (Point 3000 4000); Some (Point 5000 6000)]%Z.

(** A point layer without features. *)
Definition no_towns : GeoDataFrame Z string Z :=
  mkGdf (Some 4326%Z) [mkAttr "name" "object" []] [].

(** Two roads and a feature without shape; no CRS declared. *)
Definition roads : GeoDataFrame Z string Z :=
  mkGdf None
        [mkAttr "ref" "object" ["A1"; "B2"; "C3"]]
        [Some (LineString [(0, 0); (4, 2)]); None;
         Some (LineString [(1, 1); (3, 5); (5, 3)])]%Z.

(** Points whose attribute table already has a [longitude] field. *)
Definition sites : GeoDataFrame Z string Z :=
  mkGdf (Some 4326%Z)
        [mkAttr "longitude" "object" ["east"; "west"];
         mkAttr "name" "object" ["a"; "b"]]
        [Some (Point 1 2); Some (Point 3 4)]%Z.

(** A point and a line in one layer. *)
Definition mixed : GeoDataFrame Z string Z :=
  mkGdf (Some 4326%Z)
        [mkAttr "name" "object" ["a"; "b"]]
        [Some (Point 1 2); Some (LineString [(0, 0); (4, 2)])]%Z.

Definition disk_files (p : string) : option (file Z string Z) :=
  if p =? "towns.shp" then Some (Dataset towns)
  else if p =? "towns_utm.shp" then Some (Dataset towns_utm)
  else if p =? "no_towns.shp" then Some (Dataset no_towns)
  else if p =? "roads.shp" then Some (Dataset roads)
  else if p =? "sites.shp" then Some (Dataset sites)
  else if p =? "mixed.shp" then Some (Dataset mixed)
  else None.

Definition disk : world Z string Z := mkWorld disk_files (fun _ => None) [].

(** Bus stops: two Points and a feature without shape. *)
Definition stops : GeoDataFrame Z string Z :=
  mkGdf (Some 4326%Z)
        [mkAttr "name" "object" ["a"; "b"; "c"]]
        [Some (Point 1 2); None; Some (Point 5 6)]%Z.

(** The same library, with a pathlib that finds no name in the path ['.']. *)
Definition lib_dot : Library Z string Z := {|
  nan := nan lib;
  wgs84 := wgs84 lib;
  to_epsg := to_epsg lib;
  transform := transform lib;
  centroid := centroid lib;
  to_wkt := to_wkt lib;
  geom_str := geom_str lib;
  scalar_str := scalar_str lib;
  float_str := float_str lib;
  none_str := none_str lib;
  astype_str_dtype := astype_str_dtype lib;
  geom_type_dtype := geom_type_dtype lib;
  to_wkt_dtype := to_wkt_dtype lib;
  scalar_csv := scalar_csv lib;
  float_csv := float_csv lib;
  with_suffix_csv := fun p => if p =? "." then None else replace_suffix p
|}.

(** A second disk: the current directory holds the towns, one file is not a
    vector dataset, one destination is write-protected. *)
Definition office_files (p : string) : option (file Z string Z) :=
  if p =? "." then Some (Dataset towns)
  else if p =? "broken.shp"
       then Some (Unreadable
                    (mkExn OSError "not recognized as a supported file format"))
  else if p =? "stops.shp" then Some (Dataset stops)
  else disk_files p.

Definition office : world Z string Z :=
  mkWorld office_files
    (fun p => if p =? "locked.csv"
              then Some (mkFailure (mkExn OSError "Permission denied") None)
              else if p =? "full.csv"
              then Some (mkFailure (mkExn OSError "No space left on device")
                           (Some (mkCsv [] [])))
              else None)
    [].

(** Points whose attribute table has a [geometry_type] field. *)
Definition clash : GeoDataFrame Z string Z :=
  mkGdf (Some 4326%Z)
        [mkAttr "geometry_type" "object" ["x"; "y"];
         mkAttr "name" "object" ["a"; "b"]]
        [Some (Point 1 2); Some (Point 3 4)]%Z.

(** The same library with the text columns of pandas 3: dtype ['str'], and
    a missing value that stays missing under [astype(str)]. *)
Definition lib_str : Library Z string Z := {|
  nan := nan lib;
  wgs84 := wgs84 lib;
  to_epsg := to_epsg lib;
  transform := transform lib;
  centroid := centroid lib;
  to_wkt := to_wkt lib;
  geom_str := geom_str lib;
  scalar_str := scalar_str lib;
  float_str := float_str lib;
  none_str := None;
  astype_str_dtype := "str";
  geom_type_dtype := "str";
  to_wkt_dtype := "str";
  scalar_csv := scalar_csv lib;
  float_csv := float_csv lib;
  with_suffix_csv := with_suffix_csv lib
|}.

End Demo.

(** * Properties *)

Section Properties.

Context {coord scalar crs : Type} (L : Library coord scalar crs).

Implicit Types (c d : column coord scalar) (cols : list (column coord scalar)).
Implicit Types (df : frame coord scalar) (g : string).
Implicit Types (gs : list (option (geometry coord))).
Implicit Types (gdf : GeoDataFrame coord scalar crs).

(** ** Columns and labels *)

Lemma existsb_label g cols :
  existsb (fun c => cname c =? g) cols = true <-> In g (map cname cols).
Proof.
  rewrite existsb_exists, in_map_iff. split.
  - intros [c [Hin Heq]]. apply String.eqb_eq in Heq. now exists c.
  - intros [c [Heq Hin]]. exists c. split; [assumption|].
    now apply String.eqb_eq.
Qed.

Lemma existsb_label_false g cols :
  ~ In g (map cname cols) -> existsb (fun c => cname c =? g) cols = false.
Proof.
  intros H. destruct (existsb _ cols) eqn:E; [|reflexivity].
  apply existsb_label in E. contradiction.
Qed.

Lemma put_fresh c cols :
  ~ In (cname c) (map cname cols) -> put c cols = cols ++ [c].
Proof.
  intros H. unfold put. now rewrite existsb_label_false.
Qed.

Lemma replace_labels c cols :
  map cname (map (fun d => if cname d =? cname c then c else d) cols)
  = map cname cols.
Proof.
  induction cols as [|d r IH]; simpl; [reflexivity|].
  rewrite IH. destruct (cname d =? cname c) eqn:E; [|reflexivity].
  apply String.eqb_eq in E. now rewrite E.
Qed.

Lemma put_labels c cols :
  map cname (put c cols)
  = if existsb (fun d => cname d =? cname c) cols
    then map cname cols
    else map cname cols ++ [cname c].
Proof.
  unfold put. destruct (existsb _ cols).
  - apply replace_labels.
  - now rewrite map_app.
Qed.

Lemma put_nodup c cols :
  NoDup (map cname cols) -> NoDup (map cname (put c cols)).
Proof.
  intros H. rewrite put_labels.
  destruct (existsb _ cols) eqn:E; [assumption|].
  apply NoDup_app; [assumption | constructor; [intros [] | constructor] |].
  intros a Ha [Hb|[]]. subst a.
  apply existsb_label in Ha. congruence.
Qed.

Lemma put_find_other g c cols :
  cname c <> g ->
  find (fun d => cname d =? g) (put c cols) = find (fun d => cname d =? g) cols.
Proof.
  intros Hne. apply String.eqb_neq in Hne. unfold put.
  destruct (existsb _ cols).
  - induction cols as [|d r IH]; simpl; [reflexivity|].
    destruct (cname d =? cname c) eqn:E.
    + apply String.eqb_eq in E. rewrite Hne, E, Hne. exact IH.
    + destruct (cname d =? g); [reflexivity | exact IH].
  - induction cols as [|d r IH]; simpl.
    + now rewrite Hne.
    + destruct (cname d =? g); [reflexivity | exact IH].
Qed.

Lemma put_exists_other g c cols :
  cname c <> g ->
  existsb (fun d => cname d =? g) (put c cols)
  = existsb (fun d => cname d =? g) cols.
Proof.
  intros Hne.
  destruct (existsb (fun d => cname d =? g) cols) eqn:E.
  - apply existsb_label. rewrite put_labels.
    apply existsb_label in E. destruct (existsb _ cols); [assumption|].
    apply in_or_app. now left.
  - destruct (existsb _ (put c cols)) eqn:E'; [|reflexivity].
    apply existsb_label in E'. rewrite put_labels in E'.
    assert (In g (map cname cols)) as Hin.
    { destruct (existsb (fun d => cname d =? cname c) cols); [assumption|].
      apply in_app_or in E'. destruct E' as [H|[H|[]]]; [assumption|].
      congruence. }
    apply existsb_label in Hin. congruence.
Qed.

Lemma put_filter_other g c cols :
  cname c <> g ->
  filter (fun d => negb (cname d =? g)) (put c cols)
  = put c (filter (fun d => negb (cname d =? g)) cols).
Proof.
  intros Hne. pose proof Hne as Hneb. apply String.eqb_neq in Hneb.
  assert (existsb (fun d => cname d =? cname c)
            (filter (fun d => negb (cname d =? g)) cols)
          = existsb (fun d => cname d =? cname c) cols) as Hex.
  { induction cols as [|d r IH]; simpl; [reflexivity|].
    destruct (cname d =? g) eqn:E; simpl.
    - rewrite IH. apply String.eqb_eq in E.
      destruct (cname d =? cname c) eqn:E2; [|reflexivity].
      apply String.eqb_eq in E2. congruence.
    - now rewrite IH. }
  unfold put. rewrite Hex. destruct (existsb _ cols).
  - clear Hex. induction cols as [|d r IH]; simpl; [reflexivity|].
    destruct (cname d =? cname c) eqn:E.
    + assert ((cname d =? g) = false) as Hd.
      { apply String.eqb_eq in E. now rewrite E. }
      rewrite Hneb, Hd. simpl. now rewrite E, IH.
    + destruct (cname d =? g); simpl; [exact IH|].
      now rewrite E, IH.
  - rewrite filter_app. simpl. now rewrite Hneb.
Qed.

(** ** Frames *)

Lemma geometry_series_setitem name dtype data df :
  name <> "geometry" ->
  geometry_series (setitem name dtype data df) = geometry_series df.
Proof.
  intros H. unfold geometry_series, get_column, setitem. simpl.
  now rewrite put_find_other.
Qed.

Lemma has_geometry_setitem name dtype data df :
  name <> "geometry" ->
  has_column "geometry" (setitem name dtype data df)
  = has_column "geometry" df.
Proof.
  intros H. unfold has_column, setitem. simpl. now apply put_exists_other.
Qed.

Lemma kept_setitem name dtype data df :
  name <> "geometry" ->
  kept (setitem name dtype data df) = put (mkColumn name dtype data) (kept df).
Proof.
  intros H. unfold kept, setitem, not_geometry. simpl.
  now apply put_filter_other.
Qed.

Lemma geometry_series_has df gs :
  geometry_series df = Ok gs -> has_column "geometry" df = true.
Proof.
  unfold geometry_series, get_column, has_column.
  destruct (find _ (columns df)) as [c|] eqn:E; [|discriminate].
  intros _. apply find_some in E. apply existsb_exists. now exists c.
Qed.

Lemma drop_geometry df :
  has_column "geometry" df = true ->
  drop "geometry" df = Ok (mkFrame (index_len df) (kept df)).
Proof.
  intros H. unfold drop. now rewrite H.
Qed.

(** ** Geometry series *)

Lemma is_point_geom_type (g : geometry coord) :
  ("Point" =? geom_type g) = is_point g.
Proof. now destruct g. Qed.

Lemma map_geometry_is_point f (g : geometry coord) :
  is_point (map_geometry f g) = is_point g.
Proof. destruct g; simpl; try reflexivity. now destruct (f (x, y)). Qed.

Lemma map_geometry_geom_type f (g : geometry coord) :
  geom_type (map_geometry f g) = geom_type g.
Proof. destruct g; simpl; try reflexivity. now destruct (f (x, y)). Qed.

Lemma type_eqb_eq (a b : option string) : type_eqb a b = true -> a = b.
Proof.
  destruct a, b; simpl; try discriminate; [|reflexivity].
  intros H. apply String.eqb_eq in H. now subst.
Qed.

Lemma contains_filter s t ts :
  type_eqb (Some s) t = false ->
  contains s (filter (fun u => negb (type_eqb u t)) ts) = contains s ts.
Proof.
  intros Hst. unfold contains.
  induction ts as [|u r IH]; [reflexivity|].
  cbn [filter]. destruct (type_eqb u t) eqn:E; cbn [negb existsb].
  - rewrite IH. apply type_eqb_eq in E. subst u. now rewrite Hst.
  - now rewrite IH.
Qed.

Lemma contains_unique s ts : contains s (unique ts) = contains s ts.
Proof.
  induction ts as [|t r IH]; [reflexivity|].
  cbn [unique]. unfold contains in *. cbn [existsb].
  destruct (type_eqb (Some s) t) eqn:E; [reflexivity|].
  cbn [orb]. rewrite <- IH. now apply contains_filter.
Qed.

Lemma contains_point gs :
  contains "Point" (unique (geom_type_series gs)) = has_point gs.
Proof.
  rewrite contains_unique. unfold contains, geom_type_series, has_point.
  induction gs as [|[g|] r IH];
    cbn [map existsb option_map type_eqb orb]; [reflexivity| |exact IH].
  rewrite IH. f_equal. apply is_point_geom_type.
Qed.

Lemma centroids_are_points gs :
  all_points_or_missing (centroid_series L gs) = true.
Proof.
  unfold all_points_or_missing, centroid_series.
  induction gs as [|[g|] r IH]; simpl; try assumption; [reflexivity|].
  now destruct (centroid L g).
Qed.

Lemma series_x_centroids gs :
  series_x L (centroid_series L gs)
  = Ok (cdata (longitude_of L (centroid_series L gs))).
Proof. unfold series_x. now rewrite centroids_are_points. Qed.

Lemma series_y_centroids gs :
  series_y L (centroid_series L gs)
  = Ok (cdata (latitude_of L (centroid_series L gs))).
Proof. unfold series_y. now rewrite centroids_are_points. Qed.

(** ** The branch over [coord_format], in closed form *)

Ltac geometry_kept :=
  repeat (rewrite geometry_series_setitem by discriminate);
  repeat (rewrite has_geometry_setitem by discriminate).

Lemma flatten_closed include_geometry coord_format df gs :
  geometry_series df = Ok gs ->
  known_mode coord_format = true \/ include_geometry = false ->
  flatten L include_geometry coord_format df
  = (cs <- derived L include_geometry coord_format gs ;;
     Ok (mkFrame (index_len df) (puts cs (kept df)))).
Proof.
  intros Hg Hmode. pose proof (geometry_series_has _ _ Hg) as Hhas.
  unfold flatten, derived.
  destruct ((coord_format =? "none") || negb include_geometry) eqn:E0.
  { simpl. now apply drop_geometry. }
  destruct (coord_format =? "separate") eqn:E1.
  { rewrite Hg. simpl. rewrite contains_point.
    destruct (has_point gs).
    - unfold series_x, series_y.
      destruct (all_points_or_missing gs) eqn:Ea; simpl; [|reflexivity].
      geometry_kept. rewrite Hg. simpl. rewrite Ea. simpl.
      rewrite drop_geometry by (now geometry_kept).
      simpl. now rewrite !kept_setitem by discriminate.
    - rewrite series_x_centroids, series_y_centroids. simpl.
      geometry_kept. rewrite Hg. simpl.
      rewrite drop_geometry by (now geometry_kept).
      simpl. now rewrite !kept_setitem by discriminate. }
  destruct (coord_format =? "centroid") eqn:E2.
  { rewrite Hg. simpl. rewrite series_x_centroids, series_y_centroids. simpl.
    geometry_kept. rewrite Hg. simpl.
    rewrite drop_geometry by (now geometry_kept).
    simpl. now rewrite !kept_setitem by discriminate. }
  destruct (coord_format =? "wkt") eqn:E3.
  { rewrite Hg. simpl. geometry_kept. rewrite Hg. simpl.
    rewrite drop_geometry by (now geometry_kept).
    simpl. now rewrite !kept_setitem by discriminate. }
  exfalso. apply orb_false_iff in E0. destruct E0 as [E0 E0'].
  destruct Hmode as [Hk|Hi].
  - unfold known_mode in Hk. now rewrite E0, E1, E2, E3 in Hk.
  - subst. discriminate.
Qed.

Lemma flatten_unknown coord_format df :
  known_mode coord_format = false ->
  flatten L true coord_format df = Ok df.
Proof.
  unfold known_mode, flatten. intros H.
  repeat (apply orb_false_iff in H; destruct H as [H ?]).
  simpl. now repeat match goal with E : _ = false |- _ => rewrite E; clear E end.
Qed.

(** ** The clean-up loop *)

Lemma replace_absent c l :
  ~ In (cname c) (map cname l) ->
  map (fun d => if cname d =? cname c then c else d) l = l.
Proof.
  induction l as [|d r IH]; simpl; intros H; [reflexivity|].
  destruct (cname d =? cname c) eqn:E.
  - apply String.eqb_eq in E. exfalso. apply H. now left.
  - rewrite IH; [reflexivity|]. intros Hin. apply H. now right.
Qed.

Lemma nodup_middle (done : list (column coord scalar)) c rest :
  NoDup (map cname (done ++ c :: rest)) ->
  ~ In (cname c) (map cname done) /\ ~ In (cname c) (map cname rest).
Proof.
  rewrite map_app. simpl. intros H. apply NoDup_remove_2 in H.
  split; intros Hin; apply H; apply in_or_app; [now left | now right].
Qed.

Lemma find_middle (done : list (column coord scalar)) c rest :
  ~ In (cname c) (map cname done) ->
  find (fun d => cname d =? cname c) (done ++ c :: rest) = Some c.
Proof.
  induction done as [|d r IH]; simpl; intros H.
  - now rewrite String.eqb_refl.
  - destruct (cname d =? cname c) eqn:E.
    + apply String.eqb_eq in E. exfalso. apply H. now left.
    + apply IH. intros Hin. apply H. now right.
Qed.

Lemma put_middle (done : list (column coord scalar)) c c' rest :
  NoDup (map cname (done ++ c :: rest)) ->
  cname c' = cname c ->
  put c' (done ++ c :: rest) = done ++ c' :: rest.
Proof.
  intros Hnd Hname. destruct (nodup_middle _ _ _ Hnd) as [Hd Hr].
  unfold put.
  assert (existsb (fun d => cname d =? cname c') (done ++ c :: rest) = true)
    as Hex.
  { apply existsb_label. rewrite Hname, map_app. apply in_or_app.
    right. now left. }
  rewrite Hex, map_app. simpl. rewrite Hname, String.eqb_refl.
  rewrite <- Hname in Hd, Hr. rewrite <- Hname.
  now rewrite !replace_absent.
Qed.

Lemma scan_column_label c : cname (scan_column L c) = cname c.
Proof. unfold scan_column. now destruct (scanned c). Qed.

Lemma scan_step_middle n (done : list (column coord scalar)) c rest :
  NoDup (map cname (done ++ c :: rest)) ->
  scan_step L (mkFrame n (done ++ c :: rest)) (cname c)
  = Ok (mkFrame n (done ++ scan_column L c :: rest)).
Proof.
  intros Hnd. destruct (nodup_middle _ _ _ Hnd) as [Hd _].
  unfold scan_step, get_column. simpl. rewrite find_middle by assumption.
  unfold scan_column, scanned.
  destruct (cdtype c =? "object"); simpl; [|reflexivity].
  unfold iloc0. destruct (cdata c) as [|v vs] eqn:Ec; simpl; [reflexivity|].
  destruct (has_geom_type v); [|reflexivity].
  unfold setitem. simpl.
  rewrite <- (put_middle done c (astype_str L c) rest Hnd eq_refl).
  unfold astype_str. now rewrite Ec.
Qed.

Lemma scan_loop_columns n todo : forall done,
  NoDup (map cname (done ++ todo)) ->
  scan_loop L (map cname todo) (mkFrame n (done ++ todo))
  = Ok (mkFrame n (done ++ map (scan_column L) todo)).
Proof.
  induction todo as [|c rest IH]; intros done Hnd; simpl.
  - reflexivity.
  - rewrite scan_step_middle by assumption. simpl.
    change (done ++ scan_column L c :: rest)
      with (done ++ [scan_column L c] ++ rest).
    rewrite app_assoc, IH.
    + now rewrite <- app_assoc.
    + rewrite <- app_assoc. simpl. rewrite map_app in *. simpl in *.
      now rewrite scan_column_label.
Qed.

Lemma cleanup_columns df :
  NoDup (names df) ->
  cleanup L df
  = Ok (mkFrame (index_len df) (map (scan_column L) (columns df))).
Proof.
  intros Hnd. unfold cleanup, names. destruct df as [n cols]. simpl in *.
  exact (scan_loop_columns n cols [] Hnd).
Qed.

Lemma cleanup_untouched df :
  NoDup (names df) ->
  Forall (fun c => scanned c = false) (columns df) ->
  cleanup L df = Ok df.
Proof.
  intros Hnd Hin. rewrite cleanup_columns by assumption.
  destruct df as [n cols]. simpl in *. f_equal. f_equal. clear Hnd.
  induction Hin as [|c r Hc _ IH]; simpl; [reflexivity|].
  unfold scan_column at 1. now rewrite Hc, IH.
Qed.

(** Columns the loop leaves alone. *)

Lemma attr_untouched (a : attr_column scalar) :
  scanned (column_of_attr (coord:=coord) a) = false.
Proof.
  unfold scanned, column_of_attr. simpl.
  destruct (adtype a =? "object"); [|reflexivity].
  now destruct (avalues a).
Qed.

Lemma geometry_column_untouched gs :
  scanned (geometry_column (scalar:=scalar) gs) = false.
Proof. reflexivity. Qed.

Lemma longitude_untouched gs : scanned (scalar:=scalar) (longitude_of L gs) = false.
Proof. reflexivity. Qed.

Lemma latitude_untouched gs : scanned (scalar:=scalar) (latitude_of L gs) = false.
Proof. reflexivity. Qed.

Lemma geometry_type_untouched gs :
  scanned (scalar:=scalar) (geometry_type_of L gs) = false.
Proof.
  unfold scanned. simpl. destruct (geom_type_dtype L =? "object");
    [|reflexivity].
  now destruct gs as [|[g|] r].
Qed.

Lemma geometry_wkt_untouched gs :
  scanned (scalar:=scalar) (geometry_wkt_of L gs) = false.
Proof.
  unfold scanned. simpl. destruct (to_wkt_dtype L =? "object");
    [|reflexivity].
  now destruct gs as [|[g|] r].
Qed.

Create HintDb untouched.
#[local] Hint Resolve attr_untouched geometry_column_untouched
  longitude_untouched latitude_untouched geometry_type_untouched
  geometry_wkt_untouched : untouched.

Lemma derived_untouched include_geometry coord_format gs cs :
  derived (scalar:=scalar) L include_geometry coord_format gs = Ok cs ->
  Forall (fun c => scanned c = false) cs.
Proof.
  unfold derived. intros H.
  repeat match type of H with
         | (if ?b then _ else _) = _ => destruct b
         end;
  inversion H; subst;
  repeat constructor; auto with untouched.
Qed.

Lemma put_Forall (P : column coord scalar -> Prop) c cols :
  P c -> Forall P cols -> Forall P (put c cols).
Proof.
  intros Hc Hcols. unfold put. destruct (existsb _ cols).
  - induction Hcols as [|d r Hd _ IH]; simpl; constructor; [|exact IH].
    now destruct (cname d =? cname c).
  - apply Forall_app. split; [assumption | now constructor].
Qed.

Lemma puts_Forall (P : column coord scalar -> Prop) cs : forall cols,
  Forall P cs -> Forall P cols -> Forall P (puts cs cols).
Proof.
  induction cs as [|c r IH]; intros cols Hcs Hcols; simpl; [assumption|].
  inversion Hcs; subst. apply IH; [assumption|]. now apply put_Forall.
Qed.

Lemma puts_nodup cs : forall cols,
  NoDup (map cname cols) -> NoDup (map cname (puts cs cols)).
Proof.
  induction cs as [|c r IH]; intros cols H; simpl; [assumption|].
  apply IH. now apply put_nodup.
Qed.

(** ** The frame of a GeoDataFrame *)

Lemma attr_labels (attrs : list (attr_column scalar)) :
  map cname (map (column_of_attr (coord:=coord)) attrs) = map aname attrs.
Proof. rewrite map_map. now apply map_ext. Qed.

Lemma frame_of_labels gdf : names (frame_of gdf) = attr_names gdf ++ ["geometry"].
Proof.
  unfold names, frame_of, attr_names. simpl. now rewrite map_app, attr_labels.
Qed.

Lemma frame_of_geometry gdf :
  ~ In "geometry" (attr_names gdf) ->
  geometry_series (frame_of gdf) = Ok (gdf_geometry gdf).
Proof.
  intros H. unfold geometry_series, get_column, frame_of.
  cbn [columns].
  change (fun c : column coord scalar => cname c =? "geometry")
    with (fun c : column coord scalar =>
            cname c =? cname (geometry_column (scalar:=scalar)
                                (gdf_geometry gdf))).
  rewrite find_middle by (now rewrite attr_labels).
  simpl. f_equal. rewrite map_map.
  induction (gdf_geometry gdf) as [|[g|] r IH]; simpl; congruence.
Qed.

Lemma frame_of_kept gdf :
  ~ In "geometry" (attr_names gdf) ->
  kept (frame_of gdf) = map column_of_attr (gdf_attrs gdf).
Proof.
  unfold kept, frame_of, attr_names. simpl. intros H.
  rewrite filter_app. simpl. rewrite app_nil_r.
  induction (gdf_attrs gdf) as [|a r IH]; simpl in *; [reflexivity|].
  unfold not_geometry at 1. simpl.
  destruct (aname a =? "geometry") eqn:E.
  - apply String.eqb_eq in E. exfalso. apply H. now left.
  - simpl. rewrite IH; [reflexivity|]. intros Hin. apply H. now right.
Qed.

Lemma frame_of_nodup gdf : valid_gdf gdf -> NoDup (names (frame_of gdf)).
Proof.
  intros [Hnd Hg _]. rewrite frame_of_labels.
  apply NoDup_app; [assumption | constructor; [intros [] | constructor] |].
  intros a Ha [Hb|[]]. now subst a.
Qed.

Lemma frame_of_untouched gdf :
  Forall (fun c => scanned c = false) (columns (frame_of gdf)).
Proof.
  unfold frame_of. simpl. apply Forall_app. split.
  - apply Forall_forall. intros c Hc. apply in_map_iff in Hc.
    destruct Hc as [a [Ha _]]. subst c. apply attr_untouched.
  - constructor; [apply geometry_column_untouched | constructor].
Qed.

Lemma handle_crs_attrs gdf : gdf_attrs (handle_crs L gdf) = gdf_attrs gdf.
Proof.
  unfold handle_crs. destruct (gdf_crs gdf) as [c|]; [|reflexivity].
  now destruct (epsg_differs _ _).
Qed.

Lemma handle_crs_count gdf : num_features (handle_crs L gdf) = num_features gdf.
Proof.
  unfold handle_crs, num_features. destruct (gdf_crs gdf) as [c|]; [|reflexivity].
  destruct (epsg_differs _ _); [|reflexivity]. simpl. apply length_map.
Qed.

Lemma handle_crs_valid gdf : valid_gdf gdf -> valid_gdf (handle_crs L gdf).
Proof.
  intros [H1 H2 H3].
  constructor; unfold attr_names in *; rewrite ?handle_crs_attrs, ?handle_crs_count;
    assumption.
Qed.

(** ** The table handed to the writer, in closed form *)

Lemma output_table_known include_geometry coord_format gdf :
  valid_gdf gdf ->
  known_mode coord_format = true \/ include_geometry = false ->
  output_table L include_geometry coord_format gdf
  = (cs <- derived L include_geometry coord_format
             (gdf_geometry (handle_crs L gdf)) ;;
     Ok (mkFrame (num_features gdf)
           (puts cs (map column_of_attr (gdf_attrs gdf))))).
Proof.
  intros Hv Hmode. apply handle_crs_valid in Hv.
  pose proof (geometry_reserved _ Hv) as Hg.
  unfold output_table.
  rewrite (flatten_closed _ _ _ _ (frame_of_geometry _ Hg) Hmode).
  rewrite frame_of_kept by assumption. simpl.
  rewrite handle_crs_attrs, handle_crs_count.
  destruct (derived _ _ _ _) as [cs|e] eqn:Ed; simpl; [|reflexivity].
  apply cleanup_untouched; simpl.
  - unfold names. simpl. apply puts_nodup. rewrite attr_labels.
    rewrite <- (handle_crs_attrs gdf). exact (names_distinct _ Hv).
  - apply puts_Forall; [exact (derived_untouched _ _ _ _ Ed)|].
    apply Forall_forall. intros c Hc. apply in_map_iff in Hc.
    destruct Hc as [a [Ha _]]. subst c. apply attr_untouched.
Qed.

Lemma output_table_unknown coord_format gdf :
  valid_gdf gdf ->
  known_mode coord_format = false ->
  output_table L true coord_format gdf = Ok (frame_of (handle_crs L gdf)).
Proof.
  intros Hv Hmode. apply handle_crs_valid in Hv.
  unfold output_table. rewrite flatten_unknown by assumption. simpl.
  apply cleanup_untouched; [now apply frame_of_nodup | apply frame_of_untouched].
Qed.

(** ** Running the converter *)

Lemma convert_runs shp_path csv_path include_geometry coord_format
  (w : world coord scalar crs) gdf q df :
  files w shp_path = Some (Dataset gdf) ->
  destination L shp_path csv_path = Some q ->
  output_table L include_geometry coord_format gdf = Ok df ->
  write_error w q = None ->
  convert_shapefile_to_csv L shp_path csv_path include_geometry coord_format w
  = (Ok q,
     mkWorld (fun p => if p =? q then Some (CsvFile (csv_of_frame L df))
                       else files w p)
       (write_error w)
       (stdout w ++
        [Loaded (num_features gdf);
         GeometryTypes (unique (geom_type_series (gdf_geometry gdf)));
         CrsLine (gdf_crs gdf);
         Saved q;
         ShapeLine (index_len df) (List.length (columns df));
         ColumnsLine (names df)])).
Proof.
  intros Hfile Hdest Htable Hwrite.
  unfold convert_shapefile_to_csv, path_exists. rewrite Hfile. simpl.
  unfold io_bind, io_wrap, read_file, lift, print, io_ret, to_csv. simpl.
  rewrite Hfile. simpl.
  assert (match csv_path with
          | Some p => Ok p
          | None => match with_suffix_csv L shp_path with
                    | Some p => Ok p
                    | None => Raise (mkExn ValueError
                                       (shp_path ++ " has an empty name"))
                    end
          end = Ok q) as Hq.
  { unfold destination in Hdest. destruct csv_path as [p|].
    - congruence.
    - now rewrite Hdest. }
  rewrite Hq, Htable. simpl. rewrite Hwrite. simpl.
  unfold write_file. simpl. repeat rewrite <- app_assoc. reflexivity.
Qed.

(** ** Labels after the derived columns are stored *)

Lemma existsb_eqb (n : string) (ns : list string) :
  existsb (String.eqb n) ns = true <-> In n ns.
Proof.
  rewrite existsb_exists. split.
  - intros [m [Hin Heq]]. apply String.eqb_eq in Heq. now subst.
  - intros H. exists n. split; [assumption | apply String.eqb_refl].
Qed.

Lemma existsb_label_eqb c cols :
  existsb (fun d => cname d =? cname c) cols
  = existsb (String.eqb (cname c)) (map cname cols).
Proof.
  induction cols as [|d r IH]; simpl; [reflexivity|].
  now rewrite IH, (String.eqb_sym (cname d)).
Qed.

Lemma filter_absent_snoc (ns ms : list string) (n : string) :
  ~ In n ms ->
  filter (absent_from (ns ++ [n])) ms = filter (absent_from ns) ms.
Proof.
  intros H. apply filter_ext_in. intros m Hm. unfold absent_from.
  rewrite existsb_app. simpl. rewrite orb_false_r.
  destruct (m =? n) eqn:E; [|now rewrite orb_false_r].
  apply String.eqb_eq in E. subst. contradiction.
Qed.

Lemma puts_labels cs : forall cols,
  NoDup (map cname cs) ->
  map cname (puts cs cols)
  = map cname cols ++ filter (absent_from (map cname cols)) (map cname cs).
Proof.
  induction cs as [|c r IH]; intros cols Hnd; simpl.
  - now rewrite app_nil_r.
  - inversion Hnd as [|? ? Hc Hr]; subst.
    rewrite IH by assumption. rewrite put_labels, existsb_label_eqb.
    unfold absent_from at 2.
    destruct (existsb (String.eqb (cname c)) (map cname cols)); simpl.
    + reflexivity.
    + rewrite <- app_assoc. simpl. now rewrite filter_absent_snoc.
Qed.

Lemma puts_labels_from cs cols g :
  In g (map cname (puts cs cols)) ->
  In g (map cname cols) \/ In g (map cname cs).
Proof.
  revert cols. induction cs as [|c r IH]; intros cols H; simpl in *.
  - now left.
  - apply IH in H. destruct H as [H|H]; [|now right; right].
    rewrite put_labels in H.
    destruct (existsb _ cols); [now left|].
    apply in_app_or in H. destruct H as [H|[H|[]]]; [now left|].
    right. now left.
Qed.

Lemma put_find_same c cols :
  find (fun d => cname d =? cname c) (put c cols) = Some c.
Proof.
  unfold put. destruct (existsb _ cols) eqn:E.
  - induction cols as [|d r IH]; simpl in *; [discriminate|].
    destruct (cname d =? cname c) eqn:Ed; simpl.
    + now rewrite String.eqb_refl.
    + rewrite Ed. now apply IH.
  - induction cols as [|d r IH]; simpl in *.
    + now rewrite String.eqb_refl.
    + apply orb_false_iff in E. destruct E as [Ed Er].
      rewrite Ed. now apply IH.
Qed.

(** ** Reprojection keeps the kind of every geometry *)

Lemma handle_crs_geometry gdf :
  exists f, gdf_geometry (handle_crs L gdf)
            = map (option_map (map_geometry f)) (gdf_geometry gdf)
            \/ gdf_geometry (handle_crs L gdf) = gdf_geometry gdf.
Proof.
  unfold handle_crs. destruct (gdf_crs gdf) as [c|].
  - exists (transform L c). destruct (epsg_differs _ _); [now left | now right].
  - exists (fun p => p). now right.
Qed.

Lemma handle_crs_has_point gdf :
  has_point (gdf_geometry (handle_crs L gdf)) = has_point (gdf_geometry gdf).
Proof.
  destruct (handle_crs_geometry gdf) as [f [H|H]]; rewrite H; clear H;
    [|reflexivity].
  unfold has_point. induction (gdf_geometry gdf) as [|[g|] r IH]; simpl;
    [reflexivity | | exact IH].
  now rewrite map_geometry_is_point, IH.
Qed.

Lemma handle_crs_all_points gdf :
  all_points_or_missing (gdf_geometry (handle_crs L gdf))
  = all_points_or_missing (gdf_geometry gdf).
Proof.
  destruct (handle_crs_geometry gdf) as [f [H|H]]; rewrite H; clear H;
    [|reflexivity].
  unfold all_points_or_missing.
  induction (gdf_geometry gdf) as [|[g|] r IH]; simpl;
    [reflexivity | | exact IH].
  now rewrite map_geometry_is_point, IH.
Qed.

Lemma handle_crs_points gdf :
  Forall (fun og => exists x y, og = Some (Point x y)) (gdf_geometry gdf) ->
  Forall (fun og => exists x y, og = Some (Point x y))
    (gdf_geometry (handle_crs L gdf)).
Proof.
  intros Hp. destruct (handle_crs_geometry gdf) as [f [H|H]]; rewrite H;
    clear H; [|assumption].
  induction Hp as [|og r [x [y Hog]] _ IH]; simpl; constructor; [|exact IH].
  subst og. simpl. destruct (f (x, y)) as [x' y']. now exists x', y'.
Qed.

Lemma points_has_point gs :
  gs <> [] ->
  Forall (fun og => exists x y, og = Some (Point x y)) gs ->
  has_point gs = true /\ all_points_or_missing gs = true.
Proof.
  intros Hne Hp. split.
  - destruct Hp as [|og r [x [y Hog]] _]; [contradiction|]. now subst.
  - unfold all_points_or_missing. apply forallb_forall. intros og Hin.
    rewrite Forall_forall in Hp. destruct (Hp og Hin) as [x [y Hog]].
    now subst.
Qed.

Lemma no_point_has_point gs :
  Forall (fun og => forall x y, og <> Some (Point x y)) gs ->
  has_point gs = false.
Proof.
  intros Hp. unfold has_point.
  induction Hp as [|og r Hog _ IH]; simpl; [reflexivity|].
  rewrite IH, orb_false_r. destruct og as [g|]; [|reflexivity].
  destruct g; try reflexivity. exfalso. now apply (Hog x y).
Qed.

Lemma convert_returns shp_path csv_path include_geometry coord_format
  (w w' : world coord scalar crs) q :
  convert_shapefile_to_csv L shp_path csv_path include_geometry coord_format w
  = (Ok q, w') ->
  exists gdf df,
    files w shp_path = Some (Dataset gdf) /\
    destination L shp_path csv_path = Some q /\
    output_table L include_geometry coord_format gdf = Ok df /\
    write_error w q = None.
Proof.
  unfold convert_shapefile_to_csv, path_exists.
  destruct (files w shp_path) as [[gdf|e|t]|] eqn:Hfile; simpl;
    try discriminate.
  - unfold io_bind, io_wrap, read_file, lift, print, io_ret, to_csv. simpl.
    rewrite Hfile. simpl. unfold destination.
    destruct csv_path as [p|]; simpl.
    + destruct (output_table L include_geometry coord_format gdf) as [df|e]
        eqn:Htable; simpl; [|discriminate].
      destruct (write_error w p) eqn:Hw; simpl; [discriminate|].
      intros H. inversion H; subst. now exists gdf, df.
    + destruct (with_suffix_csv L shp_path) as [p|]; simpl; [|discriminate].
      destruct (output_table L include_geometry coord_format gdf) as [df|e]
        eqn:Htable; simpl; [|discriminate].
      destruct (write_error w p) eqn:Hw; simpl; [discriminate|].
      intros H. inversion H; subst. now exists gdf, df.
  - unfold io_bind, io_wrap, read_file, lift. simpl. rewrite Hfile.
    discriminate.
  - unfold io_bind, io_wrap, read_file, lift. simpl. rewrite Hfile.
    discriminate.
Qed.

(** ** The derived columns and the policy table *)

Lemma derived_labels include_geometry coord_format gs cs :
  derived (scalar:=scalar) L include_geometry coord_format gs = Ok cs ->
  map cname cs
  = if include_geometry then policy_derived coord_format (has_point gs) else [].
Proof.
  unfold derived, policy_derived. destruct include_geometry; simpl.
  - rewrite orb_false_r.
    destruct (coord_format =? "none"); [now inversion 1|].
    destruct (coord_format =? "separate").
    { destruct (has_point gs); [|now inversion 1].
      destruct (all_points_or_missing gs); [now inversion 1 | discriminate]. }
    destruct (coord_format =? "centroid"); [now inversion 1|].
    destruct (coord_format =? "wkt"); now inversion 1.
  - rewrite orb_true_r. now inversion 1.
Qed.

Lemma policy_derived_nodup coord_mode any_point :
  NoDup (policy_derived coord_mode any_point).
Proof.
  unfold policy_derived.
  repeat match goal with
         | |- NoDup (if ?b then _ else _) => destruct b
         end;
  repeat constructor; simpl; intuition discriminate.
Qed.

Lemma derived_defined include_geometry coord_format gs :
  (include_geometry = true -> coord_format = "separate" ->
   has_point gs = true -> all_points_or_missing gs = true) ->
  exists cs, derived (scalar:=scalar) L include_geometry coord_format gs = Ok cs.
Proof.
  intros Hflat. unfold derived.
  destruct ((coord_format =? "none") || negb include_geometry) eqn:E0;
    [now eexists|].
  apply orb_false_iff in E0. destruct E0 as [_ Hi].
  apply negb_false_iff in Hi.
  destruct (coord_format =? "separate") eqn:E1.
  - apply String.eqb_eq in E1.
    destruct (has_point gs) eqn:Hp; [|now eexists].
    rewrite (Hflat Hi E1 eq_refl). now eexists.
  - destruct (coord_format =? "centroid"); [now eexists|].
    destruct (coord_format =? "wkt"); now eexists.
Qed.

Lemma filter_all {A} (f : A -> bool) (l : list A) :
  (forall a, In a l -> f a = true) -> filter f l = l.
Proof.
  induction l as [|a r IH]; simpl; intros H; [reflexivity|].
  rewrite (H a) by now left. rewrite IH; [reflexivity|].
  intros b Hb. apply H. now right.
Qed.

(** ** The CSV of a frame *)

Lemma map_nth_all {A B} (h : A -> B) (d : A) (l : list A) :
  map (fun i => h (nth i l d)) (seq 0 (List.length l)) = map h l.
Proof.
  induction l as [|a r IH]; simpl; [reflexivity|].
  f_equal. rewrite <- seq_shift, map_map. exact IH.
Qed.

Lemma csv_geometry_column gdf :
  map (fun r => last r "") (rows (csv_of_frame L (frame_of gdf)))
  = map (fun og => match og with
                   | Some g => geom_str L g
                   | None => ""
                   end) (gdf_geometry gdf).
Proof.
  unfold csv_of_frame, frame_of, csv_row, num_features. simpl.
  rewrite map_map.
  erewrite map_ext.
  2:{ intros i. rewrite map_app. simpl. rewrite last_last. reflexivity. }
  rewrite <- (length_map (geometry_cell (scalar:=scalar)) (gdf_geometry gdf)).
  rewrite (map_nth_all (cell_csv L) VNone
             (map geometry_cell (gdf_geometry gdf))).
  rewrite map_map. apply map_ext. now intros [g|].
Qed.

(** * The claims *)

(** C1 (amended).  For every layer with at least one feature, all of whose
    features are Points, [separate] mode yields a table that consists of
    the attribute columns with [longitude] and [latitude] stored in it;
    row by row these hold the x and the y of the feature's Point (as it is
    after the CRS step).  The labels are the attribute names followed by
    [longitude] and [latitude] where these are not attribute names already:
    no [geometry_type] column is added (the table has one only when the
    source has an attribute of that name), and there is no [geometry]
    column. *)
Theorem separate_points gdf :
  valid_gdf gdf ->
  gdf_geometry gdf <> [] ->
  Forall (fun og => exists x y, og = Some (Point x y)) (gdf_geometry gdf) ->
  exists df lon lat,
    output_table L true "separate" gdf = Ok df /\
    columns df = puts [longitude_of L (gdf_geometry (handle_crs L gdf));
                       latitude_of L (gdf_geometry (handle_crs L gdf))]
                   (map column_of_attr (gdf_attrs gdf)) /\
    get_column "longitude" df = Some lon /\
    get_column "latitude" df = Some lat /\
    Forall2 (fun og v => exists x y, og = Some (Point x y) /\ v = VFloat x)
      (gdf_geometry (handle_crs L gdf)) (cdata lon) /\
    Forall2 (fun og v => exists x y, og = Some (Point x y) /\ v = VFloat y)
      (gdf_geometry (handle_crs L gdf)) (cdata lat) /\
    names df
    = attr_names gdf ++
      filter (absent_from (attr_names gdf)) ["longitude"; "latitude"] /\
    (In "geometry_type" (names df) <-> In "geometry_type" (attr_names gdf)) /\
    ~ In "geometry" (names df).
Proof.
  intros Hv Hne Hp.
  set (gs := gdf_geometry (handle_crs L gdf)).
  assert (Hp' : Forall (fun og => exists x y, og = Some (Point x y)) gs)
    by now apply handle_crs_points.
  destruct (points_has_point _ Hne Hp) as [Hhas Hall].
  assert (Hnames :
    map cname (puts [longitude_of L gs; latitude_of L gs]
                 (map (column_of_attr (coord:=coord)) (gdf_attrs gdf)))
    = attr_names gdf ++
      filter (absent_from (attr_names gdf)) ["longitude"; "latitude"]).
  { rewrite puts_labels, attr_labels; [reflexivity|].
    repeat constructor; simpl; intuition discriminate. }
  exists (mkFrame (num_features gdf)
            (puts [longitude_of L gs; latitude_of L gs]
               (map column_of_attr (gdf_attrs gdf)))),
    (longitude_of L gs), (latitude_of L gs).
  split.
  { rewrite output_table_known by (auto using handle_crs_valid).
    unfold derived. simpl. fold gs.
    unfold gs at 1 2. now rewrite handle_crs_has_point, handle_crs_all_points,
                        Hhas, Hall. }
  split; [reflexivity|].
  split.
  { unfold get_column, puts. simpl.
    change "longitude" with (cname (longitude_of (scalar:=scalar) L gs)).
    rewrite put_find_other by discriminate. apply put_find_same. }
  split.
  { unfold get_column, puts. simpl.
    change "latitude" with (cname (latitude_of (scalar:=scalar) L gs)).
    apply put_find_same. }
  split.
  { simpl. clear -Hp'. induction Hp' as [|og r [x [y Hog]] _ IH]; simpl;
      constructor; [|exact IH]. subst og. now exists x, y. }
  split.
  { simpl. clear -Hp'. induction Hp' as [|og r [x [y Hog]] _ IH]; simpl;
      constructor; [|exact IH]. subst og. now exists x, y. }
  split; [exact Hnames|].
  unfold names. cbn [columns]. rewrite Hnames. split; [split|].
  - intros Hin. apply in_app_or in Hin. destruct Hin as [Hin|Hin];
      [assumption|].
    apply filter_In in Hin. destruct Hin as [Hin _].
    simpl in Hin. now destruct Hin as [?|[?|[]]].
  - intros Hin. apply in_or_app. now left.
  - intros Hin. apply in_app_or in Hin. destruct Hin as [Hin|Hin].
    + now apply (geometry_reserved _ Hv).
    + apply filter_In in Hin. destruct Hin as [Hin _].
      simpl in Hin. now destruct Hin as [?|[?|[]]].
Qed.

(** C2.  For every layer without a Point, [separate] mode yields the
    attribute columns with [longitude], [latitude] and [geometry_type]
    stored in them: row by row the centroid's coordinates (nan where the
    feature has no shape) and the name of the geometry type ([None] where
    the feature has no shape); the [geometry] column is gone. *)
Theorem separate_without_points gdf :
  valid_gdf gdf ->
  Forall (fun og => forall x y, og <> Some (Point x y)) (gdf_geometry gdf) ->
  exists df lon lat kind,
    output_table L true "separate" gdf = Ok df /\
    columns df
    = puts [longitude_of L (centroid_series L (gdf_geometry (handle_crs L gdf)));
            latitude_of L (centroid_series L (gdf_geometry (handle_crs L gdf)));
            geometry_type_of L (gdf_geometry (handle_crs L gdf))]
        (map column_of_attr (gdf_attrs gdf)) /\
    get_column "longitude" df = Some lon /\
    get_column "latitude" df = Some lat /\
    get_column "geometry_type" df = Some kind /\
    cdata lon = map (fun og => match og with
                               | Some g => VFloat (fst (centroid L g))
                               | None => VFloat (nan L)
                               end) (gdf_geometry (handle_crs L gdf)) /\
    cdata lat = map (fun og => match og with
                               | Some g => VFloat (snd (centroid L g))
                               | None => VFloat (nan L)
                               end) (gdf_geometry (handle_crs L gdf)) /\
    cdata kind = map (fun og => match og with
                                | Some g => VStr (geom_type g)
                                | None => VNone
                                end) (gdf_geometry (handle_crs L gdf)) /\
    ~ In "geometry" (names df).
Proof.
  intros Hv Hp.
  set (gs := gdf_geometry (handle_crs L gdf)).
  exists (mkFrame (num_features gdf)
            (puts [longitude_of L (centroid_series L gs);
                   latitude_of L (centroid_series L gs);
                   geometry_type_of L gs]
               (map column_of_attr (gdf_attrs gdf)))),
    (longitude_of L (centroid_series L gs)),
    (latitude_of L (centroid_series L gs)),
    (geometry_type_of L gs).
  split.
  { rewrite output_table_known by (auto using handle_crs_valid).
    unfold derived. simpl. fold gs. unfold gs at 1.
    now rewrite handle_crs_has_point, (no_point_has_point _ Hp). }
  split; [reflexivity|].
  split.
  { unfold get_column, puts. simpl.
    change "longitude"
      with (cname (longitude_of (scalar:=scalar) L (centroid_series L gs))).
    rewrite !put_find_other by discriminate. apply put_find_same. }
  split.
  { unfold get_column, puts. simpl.
    change "latitude"
      with (cname (latitude_of (scalar:=scalar) L (centroid_series L gs))).
    rewrite put_find_other by discriminate. apply put_find_same. }
  split.
  { unfold get_column, puts. simpl.
    change "geometry_type"
      with (cname (geometry_type_of (scalar:=scalar) L gs)).
    apply put_find_same. }
  split.
  { simpl. unfold centroid_series. rewrite map_map. apply map_ext.
    intros [g|]; simpl; [|reflexivity]. now destruct (centroid L g). }
  split.
  { simpl. unfold centroid_series. rewrite map_map. apply map_ext.
    intros [g|]; simpl; [|reflexivity]. now destruct (centroid L g). }
  split.
  { simpl. unfold geom_type_series. rewrite map_map. apply map_ext.
    now intros [g|]. }
  unfold names. cbn [columns]. intros Hin.
  apply puts_labels_from in Hin. rewrite attr_labels in Hin.
  destruct Hin as [Hin|Hin].
  - now apply (geometry_reserved _ Hv).
  - simpl in Hin. now destruct Hin as [?|[?|[?|[]]]].
Qed.

(** C3 (amended).  For every layer, [wkt] mode yields a table that holds a
    [geometry_wkt] column, the WKT of each feature's geometry, and a
    [geometry_type] column, the name of its type (both [None] for a feature
    without shape), and no [geometry] column.  The labels are the attribute
    names followed by [geometry_wkt] and [geometry_type], in that order,
    where these are not attribute names already: each of the two is
    appended, unless the source has an attribute of that name, whose place
    it then takes. *)
Theorem wkt_columns gdf :
  valid_gdf gdf ->
  exists df wkt kind,
    output_table L true "wkt" gdf = Ok df /\
    columns df
    = puts [geometry_wkt_of L (gdf_geometry (handle_crs L gdf));
            geometry_type_of L (gdf_geometry (handle_crs L gdf))]
        (map column_of_attr (gdf_attrs gdf)) /\
    get_column "geometry_wkt" df = Some wkt /\
    get_column "geometry_type" df = Some kind /\
    cdata wkt = map (fun og => match og with
                               | Some g => VStr (to_wkt L g)
                               | None => VNone
                               end) (gdf_geometry (handle_crs L gdf)) /\
    cdata kind = map (fun og => match og with
                                | Some g => VStr (geom_type g)
                                | None => VNone
                                end) (gdf_geometry (handle_crs L gdf)) /\
    names df
    = attr_names gdf ++
      filter (absent_from (attr_names gdf))
        ["geometry_wkt"; "geometry_type"] /\
    ~ In "geometry" (names df).
Proof.
  intros Hv.
  set (gs := gdf_geometry (handle_crs L gdf)).
  assert (Hnames :
    map cname (puts [geometry_wkt_of L gs; geometry_type_of L gs]
                 (map (column_of_attr (coord:=coord)) (gdf_attrs gdf)))
    = attr_names gdf ++
      filter (absent_from (attr_names gdf))
        ["geometry_wkt"; "geometry_type"]).
  { rewrite puts_labels, attr_labels; [reflexivity|].
    repeat constructor; simpl; intuition discriminate. }
  exists (mkFrame (num_features gdf)
            (puts [geometry_wkt_of L gs; geometry_type_of L gs]
               (map column_of_attr (gdf_attrs gdf)))),
    (geometry_wkt_of L gs), (geometry_type_of L gs).
  split.
  { rewrite output_table_known by (auto using handle_crs_valid).
    unfold derived. cbn [String.eqb Ascii.eqb Bool.eqb negb orb bind].
    reflexivity. }
  split; [reflexivity|].
  split.
  { unfold get_column, puts. simpl.
    change "geometry_wkt" with (cname (geometry_wkt_of (scalar:=scalar) L gs)).
    rewrite put_find_other by discriminate. apply put_find_same. }
  split.
  { unfold get_column, puts. simpl.
    change "geometry_type"
      with (cname (geometry_type_of (scalar:=scalar) L gs)).
    apply put_find_same. }
  split.
  { simpl. unfold to_wkt_series. apply map_ext. now intros [g|]. }
  split.
  { simpl. unfold geom_type_series. rewrite map_map. apply map_ext.
    now intros [g|]. }
  split; [exact Hnames|].
  unfold names. cbn [columns]. rewrite Hnames. intros Hin.
  apply in_app_or in Hin. destruct Hin as [Hin|Hin].
  - now apply (geometry_reserved _ Hv).
  - apply filter_In in Hin. destruct Hin as [Hin _].
    simpl in Hin. now destruct Hin as [?|[?|[]]].
Qed.

(** C4.  With [coord_format] ['none'], or with [include_geometry] false
    whatever the mode, the table is exactly the attribute columns, in their
    original order: nothing derived from the geometry, as many columns as
    attributes. *)
Theorem geometry_excluded include_geometry coord_format gdf :
  valid_gdf gdf ->
  coord_format = "none" \/ include_geometry = false ->
  exists df,
    output_table L include_geometry coord_format gdf = Ok df /\
    columns df = map column_of_attr (gdf_attrs gdf) /\
    names df = attr_names gdf /\
    List.length (columns df) = List.length (gdf_attrs gdf).
Proof.
  intros Hv Hmode.
  exists (mkFrame (num_features gdf) (map column_of_attr (gdf_attrs gdf))).
  split.
  { rewrite output_table_known; [|assumption|].
    - unfold derived.
      replace ((coord_format =? "none") || negb include_geometry) with true;
        [reflexivity|].
      destruct Hmode as [H|H]; subst; [reflexivity|].
      simpl. now rewrite orb_true_r.
    - destruct Hmode as [H|H]; [left; now subst | now right]. }
  split; [reflexivity|]. split.
  - unfold names. simpl. apply attr_labels.
  - simpl. apply length_map.
Qed.


(** C6.  A source path that names no file makes [convert_shapefile_to_csv]
    raise FileNotFoundError with the world untouched (no file created,
    nothing printed), and makes [main] print [Error: <message>] and exit
    with status 1.  Whenever the conversion returns a path, that path holds
    a CSV; provided it has a column to read back, [main] prints the
    completion message, the output path and the first five rows of the CSV,
    and exits with status 0. *)
Theorem missing_source_and_exit_status args (w : world coord scalar crs) :
  (files w (shapefile args) = None ->
   (forall csv_path include_geometry coord_format,
      convert_shapefile_to_csv L (shapefile args) csv_path include_geometry
        coord_format w
      = (Raise (mkExn FileNotFoundError
                  ("Shapefile not found: " ++ shapefile args)), w)) /\
   main L args w
   = (1%Z, mkWorld (files w) (write_error w)
             (stdout w ++
              [Line ("Error: Shapefile not found: " ++ shapefile args)]))) /\
  (forall q w',
     convert_shapefile_to_csv L (shapefile args) (output_path args)
       (negb (no_geometry args)) (coord_format_arg args) w = (Ok q, w') ->
     exists t,
       files w' q = Some (CsvFile t) /\
       (header t <> [] ->
        main L args w
        = (0%Z, mkWorld (files w') (write_error w')
                  (stdout w' ++
                   [Line (newline ++ "Conversion completed successfully!");
                    Line ("Output file: " ++ q);
                    Line (newline ++ "Preview of first 5 rows:");
                    Preview (mkCsv (header t) (firstn 5 (rows t)))])))).
Proof.
  split.
  - intros Hfile.
    assert (forall csv_path include_geometry coord_format,
      convert_shapefile_to_csv L (shapefile args) csv_path include_geometry
        coord_format w
      = (Raise (mkExn FileNotFoundError
                  ("Shapefile not found: " ++ shapefile args)), w)) as Hraise.
    { intros. unfold convert_shapefile_to_csv, path_exists.
      now rewrite Hfile. }
    split; [exact Hraise|].
    unfold main, io_bind. now rewrite Hraise.
  - intros q w' Hconv.
    destruct (convert_returns _ _ _ _ _ _ _ Hconv)
      as [gdf [df [Hfile [Hdest [Htable Hwrite]]]]].
    pose proof (convert_runs _ _ _ _ _ _ _ _ Hfile Hdest Htable Hwrite) as Hrun.
    rewrite Hconv in Hrun. inversion Hrun as [Hw']. clear Hrun.
    exists (csv_of_frame L df). split.
    + simpl. now rewrite String.eqb_refl.
    + intros Hcols. unfold main, io_bind. rewrite Hconv.
      unfold print, read_csv. rewrite Hw'.
      cbn [files write_error stdout]. rewrite String.eqb_refl.
      destruct (header (csv_of_frame L df)) as [|n ns] eqn:En;
        [contradiction|].
      cbn [files write_error stdout]. rewrite En.
      repeat rewrite <- app_assoc. reflexivity.
Qed.

Lemma convert_writes_table shp_path csv_path include_geometry coord_format
  (w w' : world coord scalar crs) gdf q :
  files w shp_path = Some (Dataset gdf) ->
  convert_shapefile_to_csv L shp_path csv_path include_geometry coord_format w
  = (Ok q, w') ->
  exists df,
    output_table L include_geometry coord_format gdf = Ok df /\
    files w' q = Some (CsvFile (csv_of_frame L df)).
Proof.
  intros Hfile Hconv.
  destruct (convert_returns _ _ _ _ _ _ _ Hconv)
    as [gdf' [df [Hfile' [Hdest [Htable Hwrite]]]]].
  rewrite Hfile in Hfile'. inversion Hfile'; subst gdf'.
  pose proof (convert_runs _ _ _ _ _ _ _ _ Hfile Hdest Htable Hwrite) as Hrun.
  rewrite Hconv in Hrun. inversion Hrun as [Hw'].
  exists df. split; [exact Htable|]. simpl. now rewrite String.eqb_refl.
Qed.

(** C5.  When the layer declares a CRS whose EPSG code is not 4326, the
    table the conversion builds, and the CSV it writes, are those of the
    layer with every geometry transformed to EPSG:4326.  When the layer
    declares no CRS, or one whose code is 4326, they are those of the layer
    as it was read: the step is skipped and raises nothing of its own. *)
Theorem reprojection_rule shp_path csv_path include_geometry coord_format
  (w : world coord scalar crs) gdf :
  files w shp_path = Some (Dataset gdf) ->
  (forall src, gdf_crs gdf = Some src -> to_epsg L src <> Some 4326%Z ->
     output_table L include_geometry coord_format gdf
     = flat_table L include_geometry coord_format (to_crs L src gdf) /\
     gdf_geometry (to_crs L src gdf)
     = map (option_map (map_geometry (transform L src))) (gdf_geometry gdf) /\
     forall q w',
       convert_shapefile_to_csv L shp_path csv_path include_geometry
         coord_format w = (Ok q, w') ->
       exists df,
         flat_table L include_geometry coord_format (to_crs L src gdf)
         = Ok df /\
         files w' q = Some (CsvFile (csv_of_frame L df))) /\
  (gdf_crs gdf = None ->
     output_table L include_geometry coord_format gdf
     = flat_table L include_geometry coord_format gdf /\
     forall q w',
       convert_shapefile_to_csv L shp_path csv_path include_geometry
         coord_format w = (Ok q, w') ->
       exists df,
         flat_table L include_geometry coord_format gdf = Ok df /\
         files w' q = Some (CsvFile (csv_of_frame L df))) /\
  (forall src, gdf_crs gdf = Some src -> to_epsg L src = Some 4326%Z ->
     output_table L include_geometry coord_format gdf
     = flat_table L include_geometry coord_format gdf /\
     forall q w',
       convert_shapefile_to_csv L shp_path csv_path include_geometry
         coord_format w = (Ok q, w') ->
       exists df,
         flat_table L include_geometry coord_format gdf = Ok df /\
         files w' q = Some (CsvFile (csv_of_frame L df))).
Proof.
  intros Hfile.
  assert (forall layer : GeoDataFrame coord scalar crs,
    handle_crs L gdf = layer ->
    output_table L include_geometry coord_format gdf
    = flat_table L include_geometry coord_format layer /\
    forall q w',
      convert_shapefile_to_csv L shp_path csv_path include_geometry
        coord_format w = (Ok q, w') ->
      exists df,
        flat_table L include_geometry coord_format layer = Ok df /\
        files w' q = Some (CsvFile (csv_of_frame L df))) as Hstep.
  { intros layer Hg.
    assert (output_table L include_geometry coord_format gdf
            = flat_table L include_geometry coord_format layer) as Heq
      by (unfold output_table, flat_table; now rewrite Hg).
    split; [exact Heq|]. intros q w' Hconv. rewrite <- Heq.
    exact (convert_writes_table _ _ _ _ _ _ _ _ Hfile Hconv). }
  split; [|split].
  - intros src Hc Hne.
    assert (handle_crs L gdf = to_crs L src gdf) as Hg.
    { unfold handle_crs. rewrite Hc.
      assert (epsg_differs (to_epsg L src) 4326 = true) as Hd.
      { unfold epsg_differs. destruct (to_epsg L src) as [m|]; [|reflexivity].
        destruct (m =? 4326)%Z eqn:E; [|reflexivity].
        apply Z.eqb_eq in E. now subst. }
      now rewrite Hd. }
    destruct (Hstep _ Hg) as [Ht Hcsv].
    split; [exact Ht|]. split; [reflexivity | exact Hcsv].
  - intros Hc. apply Hstep. unfold handle_crs. now rewrite Hc.
  - intros src Hc He. apply Hstep. unfold handle_crs. now rewrite Hc, He.
Qed.

Lemma flattened_untouched include_geometry coord_format gdf df :
  valid_gdf gdf ->
  flatten L include_geometry coord_format (frame_of (handle_crs L gdf))
  = Ok df ->
  NoDup (names df) /\ Forall (fun c => scanned c = false) (columns df).
Proof.
  intros Hv. apply handle_crs_valid in Hv.
  pose proof (geometry_reserved _ Hv) as Hg.
  destruct (known_mode coord_format || negb include_geometry) eqn:E.
  - assert (known_mode coord_format = true \/ include_geometry = false)
      as Hmode.
    { apply orb_true_iff in E. destruct E as [E|E]; [now left|].
      right. now apply negb_true_iff. }
    rewrite (flatten_closed _ _ _ _ (frame_of_geometry _ Hg) Hmode).
    rewrite frame_of_kept by assumption.
    destruct (derived _ _ _ _) as [cs|e] eqn:Ed; simpl; [|discriminate].
    intros H. inversion H; subst df. simpl. split.
    + unfold names. simpl. apply puts_nodup. rewrite attr_labels.
      exact (names_distinct _ Hv).
    + apply puts_Forall; [exact (derived_untouched _ _ _ _ Ed)|].
      apply Forall_forall. intros c Hc. apply in_map_iff in Hc.
      destruct Hc as [a [Ha _]]. subst c. apply attr_untouched.
  - apply orb_false_iff in E. destruct E as [Hk Hi].
    apply negb_false_iff in Hi. subst include_geometry.
    rewrite flatten_unknown by assumption.
    intros H. inversion H; subst df.
    split; [now apply frame_of_nodup | apply frame_of_untouched].
Qed.

(** C7 (amended).  The clean-up loop rewrites a column exactly when its
    dtype is ['object'] and its first cell is a geometry object: the column
    keeps its label and every cell goes through [astype(str)], which turns
    a geometry into its text.  Every other column (another dtype, among
    them the geometry dtype; no first cell; a first cell that is not a
    geometry) is left as it is.  On every table the conversion builds,
    whatever the mode, no column is of the first kind: the loop returns
    the table unchanged. *)
Theorem scan_rewrites_object_columns :
  (forall df,
     NoDup (names df) ->
     exists df',
       cleanup L df = Ok df' /\
       Forall2 (fun c c' =>
                  if (cdtype c =? "object") &&
                     match cdata c with
                     | v :: _ => has_geom_type v
                     | [] => false
                     end
                  then cname c' = cname c /\
                       cdata c' = map (str_cell L) (cdata c)
                  else c' = c)
         (columns df) (columns df')) /\
  (forall shape : geometry coord,
     str_cell L (VGeom shape) = VStr (geom_str L shape)) /\
  (forall include_geometry coord_format gdf df,
     valid_gdf gdf ->
     flatten L include_geometry coord_format (frame_of (handle_crs L gdf))
     = Ok df ->
     cleanup L df = Ok df).
Proof.
  split; [|split].
  - intros df Hnd.
    exists (mkFrame (index_len df) (map (scan_column L) (columns df))).
    split; [now apply cleanup_columns|].
    simpl. clear. induction (columns df) as [|c r IH]; simpl; constructor;
      [|exact IH].
    unfold scan_column, scanned.
    destruct ((cdtype c =? "object") && _); [now split | reflexivity].
  - reflexivity.
  - intros include_geometry coord_format gdf df Hv Hflat.
    destruct (flattened_untouched _ _ _ _ Hv Hflat) as [Hnd Hun].
    now apply cleanup_untouched.
Qed.

(** C8 (amended).  Whenever the layer can be flattened (in [separate]
    mode: a layer with a Point holds nothing but Points and missing
    shapes) and the destination can be resolved and written, the conversion
    returns the destination: the path given or, without one, the source
    path with its suffix replaced.  Reading that CSV back (it has a column
    as soon as the policy table predicts one) gives one record
    per feature and a header made of the attribute names followed by those
    derived names of the policy table that are not attribute names already
    (a derived column replaces an attribute of the same name where it
    stands).  When no derived name is an attribute name, the header is the
    list the policy table predicts. *)
Theorem round_trip shp_path csv_path include_geometry coord_format
  (w : world coord scalar crs) gdf q :
  files w shp_path = Some (Dataset gdf) ->
  valid_gdf gdf ->
  known_mode coord_format = true \/ include_geometry = false ->
  (include_geometry = true -> coord_format = "separate" ->
   has_point (gdf_geometry gdf) = true ->
   all_points_or_missing (gdf_geometry gdf) = true) ->
  policy_columns include_geometry coord_format gdf <> [] ->
  destination L shp_path csv_path = Some q ->
  write_error w q = None ->
  exists w' t,
    convert_shapefile_to_csv L shp_path csv_path include_geometry
      coord_format w = (Ok q, w') /\
    read_csv q w' = (Ok t, w') /\
    List.length (rows t) = num_features gdf /\
    header t
    = attr_names gdf ++
      filter (absent_from (attr_names gdf))
        (policy_extra include_geometry coord_format gdf) /\
    ((forall n, In n (policy_extra include_geometry coord_format gdf) ->
                ~ In n (attr_names gdf)) ->
     header t = policy_columns include_geometry coord_format gdf).
Proof.
  intros Hfile Hv Hmode Hflat Hcols Hdest Hwrite.
  destruct (derived_defined include_geometry coord_format
              (gdf_geometry (handle_crs L gdf))) as [cs Hcs].
  { rewrite handle_crs_has_point, handle_crs_all_points. exact Hflat. }
  pose proof (output_table_known include_geometry coord_format gdf Hv Hmode)
    as Htable.
  rewrite Hcs in Htable. simpl in Htable.
  pose proof (convert_runs _ _ _ _ _ _ _ _ Hfile Hdest Htable Hwrite) as Hrun.
  assert (Hheader :
    map cname (puts cs (map (column_of_attr (coord:=coord)) (gdf_attrs gdf)))
    = attr_names gdf ++
      filter (absent_from (attr_names gdf))
        (policy_extra include_geometry coord_format gdf)).
  { pose proof (derived_labels _ _ _ _ Hcs) as Hl.
    rewrite handle_crs_has_point in Hl.
    rewrite puts_labels, attr_labels, Hl; [reflexivity|].
    rewrite Hl. destruct include_geometry;
      [apply policy_derived_nodup | constructor]. }
  eexists. eexists. split; [exact Hrun|].
  split.
  { unfold read_csv. simpl. rewrite String.eqb_refl. simpl.
    unfold names. simpl. rewrite Hheader.
    destruct (attr_names gdf ++ _) as [|n ns] eqn:E; [|reflexivity].
    exfalso. apply Hcols. unfold policy_columns.
    apply app_eq_nil in E. destruct E as [Ea Ef]. rewrite Ea in *.
    simpl. rewrite <- Ef. symmetry. now apply filter_all. }
  split. { simpl. now rewrite length_map, length_seq. }
  split. { exact Hheader. }
  intros Hfresh. simpl. unfold names. simpl. rewrite Hheader.
  unfold policy_columns. f_equal. apply filter_all.
  intros n Hn. unfold absent_from. apply negb_true_iff.
  destruct (existsb (String.eqb n) (attr_names gdf)) eqn:E; [|reflexivity].
  apply existsb_eqb in E. exfalso. now apply (Hfresh n).
Qed.

(** C9 (amended).  With [include_geometry] true and a [coord_format]
    outside the four modes the conversion does not raise: no branch runs,
    the frame keeps its geometry column, and the CSV that is written has
    the attribute names followed by [geometry] as its header, the last
    field of every record being the text of that feature's geometry (empty
    for a missing shape); no column is derived. *)
Theorem unknown_mode_keeps_geometry shp_path csv_path coord_format
  (w : world coord scalar crs) gdf q :
  files w shp_path = Some (Dataset gdf) ->
  valid_gdf gdf ->
  known_mode coord_format = false ->
  destination L shp_path csv_path = Some q ->
  write_error w q = None ->
  flatten L true coord_format (frame_of (handle_crs L gdf))
  = Ok (frame_of (handle_crs L gdf)) /\
  get_column "geometry" (frame_of (handle_crs L gdf))
  = Some (mkColumn "geometry" "geometry"
            (map geometry_cell (gdf_geometry (handle_crs L gdf)))) /\
  exists w' t,
    convert_shapefile_to_csv L shp_path csv_path true coord_format w
    = (Ok q, w') /\
    files w' q = Some (CsvFile t) /\
    header t = attr_names gdf ++ ["geometry"] /\
    map (fun r => last r "") (rows t)
    = map (fun og => match og with
                     | Some g => geom_str L g
                     | None => ""
                     end) (gdf_geometry (handle_crs L gdf)).
Proof.
  intros Hfile Hv Hmode Hdest Hwrite.
  pose proof (handle_crs_valid _ Hv) as Hv'.
  pose proof (output_table_unknown coord_format gdf Hv Hmode) as Htable.
  split; [now apply flatten_unknown|].
  split.
  { pose proof (frame_of_geometry _ (geometry_reserved _ Hv')) as Hg.
    unfold geometry_series in Hg. unfold get_column, frame_of in *.
    cbn [columns] in *.
    change (fun c : column coord scalar => cname c =? "geometry")
      with (fun c : column coord scalar =>
              cname c =? cname (geometry_column (scalar:=scalar)
                                  (gdf_geometry (handle_crs L gdf)))).
    rewrite find_middle; [reflexivity|].
    rewrite attr_labels. exact (geometry_reserved _ Hv'). }
  pose proof (convert_runs _ _ _ _ _ _ _ _ Hfile Hdest Htable Hwrite) as Hrun.
  eexists. eexists. split; [exact Hrun|].
  split. { simpl. now rewrite String.eqb_refl. }
  split.
  { simpl. rewrite frame_of_labels. unfold attr_names.
    now rewrite handle_crs_attrs. }
  apply csv_geometry_column.
Qed.

Lemma empty_flatten include_geometry coord_format gdf :
  valid_gdf gdf ->
  num_features gdf = 0 ->
  exists df,
    flatten L include_geometry coord_format (frame_of (handle_crs L gdf))
    = Ok df /\
    index_len df = 0 /\
    NoDup (names df) /\
    Forall (fun c => cdata c = []) (columns df).
Proof.
  intros Hv Hn. pose proof (handle_crs_valid _ Hv) as Hv'.
  pose proof (handle_crs_count gdf) as Hn'. rewrite Hn in Hn'.
  assert (gdf_geometry (handle_crs L gdf) = []) as Hgs.
  { now apply length_zero_iff_nil. }
  assert (Forall (fun c : column coord scalar => cdata c = [])
            (map column_of_attr (gdf_attrs (handle_crs L gdf)))) as Hattrs.
  { pose proof (rows_aligned _ Hv') as Hr. rewrite Hn' in Hr.
    apply Forall_forall. intros c Hc. apply in_map_iff in Hc.
    destruct Hc as [a [Ha Hin]]. subst c. simpl.
    rewrite Forall_forall in Hr. apply Hr in Hin.
    apply length_zero_iff_nil in Hin. now rewrite Hin. }
  destruct (known_mode coord_format || negb include_geometry) eqn:E.
  - assert (known_mode coord_format = true \/ include_geometry = false)
      as Hmode.
    { apply orb_true_iff in E. destruct E as [E|E]; [now left|].
      right. now apply negb_true_iff. }
    rewrite (flatten_closed _ _ _ _
               (frame_of_geometry _ (geometry_reserved _ Hv')) Hmode).
    rewrite frame_of_kept by exact (geometry_reserved _ Hv').
    rewrite Hgs.
    assert (exists cs,
      derived (scalar:=scalar) L include_geometry coord_format [] = Ok cs /\
      Forall (fun c => cdata c = []) cs) as [cs [Hcs Hempty]].
    { unfold derived. simpl.
      repeat match goal with
             | |- context [if ?b then _ else _] => destruct b
             end;
      eexists; (split; [reflexivity | repeat constructor]). }
    rewrite Hcs. simpl. eexists. split; [reflexivity|]. simpl.
    split; [exact Hn'|]. split.
    + unfold names. simpl. apply puts_nodup. rewrite attr_labels.
      exact (names_distinct _ Hv').
    + now apply puts_Forall.
  - apply orb_false_iff in E. destruct E as [Hk Hi].
    apply negb_false_iff in Hi. subst include_geometry.
    rewrite flatten_unknown by assumption.
    eexists. split; [reflexivity|]. simpl.
    split; [exact Hn'|]. split.
    + now apply frame_of_nodup.
    + apply Forall_app. split; [assumption|].
      constructor; [|constructor]. simpl. now rewrite Hgs.
Qed.

(** C10.  A layer without features is converted, whatever the mode: every
    column of the flattened table is empty, so reading its first cell
    raises IndexError, each pass of the clean-up loop returns the frame as
    it was, and the CSV that is written, at the path that is returned, has
    the header and no record. *)
Theorem empty_layer_converts shp_path csv_path include_geometry coord_format
  (w : world coord scalar crs) gdf q :
  files w shp_path = Some (Dataset gdf) ->
  valid_gdf gdf ->
  num_features gdf = 0 ->
  destination L shp_path csv_path = Some q ->
  write_error w q = None ->
  exists df w',
    flatten L include_geometry coord_format (frame_of (handle_crs L gdf))
    = Ok df /\
    Forall (fun c =>
              iloc0 c = Raise (mkExn IndexError
                                 "single positional indexer is out-of-bounds") /\
              try_pass (v <- iloc0 c ;;
                        if has_geom_type v
                        then Ok (setitem (cname c) (cdtype (astype_str L c))
                                   (cdata (astype_str L c)) df)
                        else Ok df)
                [IndexError; AttributeError] df = Ok df /\
              scan_step L df (cname c) = Ok df)
      (columns df) /\
    cleanup L df = Ok df /\
    convert_shapefile_to_csv L shp_path csv_path include_geometry
      coord_format w = (Ok q, w') /\
    files w' q = Some (CsvFile (mkCsv (names df) [])).
Proof.
  intros Hfile Hv Hn Hdest Hwrite.
  destruct (empty_flatten include_geometry coord_format gdf Hv Hn)
    as [df [Hflat [Hlen [Hnd Hempty]]]].
  assert (Forall (fun c => scanned c = false) (columns df)) as Hun.
  { eapply Forall_impl; [|exact Hempty]. intros c Hc. unfold scanned.
    rewrite Hc. apply andb_false_r. }
  pose proof (cleanup_untouched df Hnd Hun) as Hclean.
  assert (output_table L include_geometry coord_format gdf = Ok df) as Htable.
  { unfold output_table. rewrite Hflat. exact Hclean. }
  pose proof (convert_runs _ _ _ _ _ _ _ _ Hfile Hdest Htable Hwrite) as Hrun.
  exists df. eexists. split; [exact Hflat|].
  split.
  { apply Forall_forall. intros c Hc.
    rewrite Forall_forall in Hempty, Hun.
    pose proof (Hempty c Hc) as Hdata. pose proof (Hun c Hc) as Hsc.
    unfold iloc0. rewrite Hdata. split; [reflexivity|].
    split; [reflexivity|].
    destruct (in_split _ _ Hc) as [done [rest Hsplit]].
    destruct df as [n cols]. simpl in *. subst cols.
    rewrite scan_step_middle by exact Hnd.
    unfold scan_column. now rewrite Hsc. }
  split; [exact Hclean|].
  split; [exact Hrun|].
  simpl. rewrite String.eqb_refl. unfold csv_of_frame. now rewrite Hlen.
Qed.

End Properties.

(** * The claims on concrete layers *)

Ltac valid_layer :=
  constructor; simpl;
  [ repeat constructor; simpl; intuition discriminate
  | intuition discriminate
  | repeat constructor ].

Ltac all_points :=
  repeat (constructor; [do 2 eexists; reflexivity|]); constructor.

(** The example of the specification: three towns, default options. *)
Example towns_csv :
  fst (convert_shapefile_to_csv Demo.lib "towns.shp" None true "separate"
         Demo.disk) = Ok "towns.csv" /\
  files (snd (convert_shapefile_to_csv Demo.lib "towns.shp" None true
                "separate" Demo.disk)) "towns.csv"
  = Some (CsvFile (mkCsv ["name"; "longitude"; "latitude"]
                     [["a"; "1"; "2"]; ["b"; "3"; "4"]; ["c"; "5"; "6"]])).
Proof. split; reflexivity. Qed.

(** A point and a line in [separate] mode: the x accessor refuses. *)
Example mixed_layer_raises :
  output_table Demo.lib true "separate" Demo.mixed
  = Raise (mkExn ValueError
             "x attribute access only provided for Point geometries").
Proof. reflexivity. Qed.

(** The clean-up loop does rewrite an object column that starts with a
    geometry. *)
Example object_column_is_rewritten :
  cleanup Demo.lib
    (mkFrame 1 [mkColumn "shape" "object" [VGeom (Point 1 2)%Z]])
  = Ok (mkFrame 1 [mkColumn "shape" "object" [VStr "POINT (1 2)"]]).
Proof. reflexivity. Qed.

(** C1, as stated, fails on a point layer without features: no Point is
    found among the geometry types, the centroid branch runs and stores a
    [geometry_type] column.  It also fails on a layer of Points that has a
    [geometry_type] field, which stays in the table. *)
Lemma separate_on_empty_point_layer :
  (valid_gdf Demo.no_towns /\
   Forall (fun og => exists x y, og = Some (Point x y))
     (gdf_geometry Demo.no_towns) /\
   exists df,
     output_table Demo.lib true "separate" Demo.no_towns = Ok df /\
     names df = ["name"; "longitude"; "latitude"; "geometry_type"] /\
     In "geometry_type" (names df)) /\
  (valid_gdf Demo.clash /\
   Forall (fun og => exists x y, og = Some (Point x y))
     (gdf_geometry Demo.clash) /\
   exists df,
     output_table Demo.lib true "separate" Demo.clash = Ok df /\
     names df = ["geometry_type"; "name"; "longitude"; "latitude"] /\
     In "geometry_type" (names df)).
Proof.
  split.
  - split; [valid_layer|]. split; [constructor|].
    eexists. split; [reflexivity|]. split; [reflexivity|].
    simpl. tauto.
  - split; [valid_layer|]. split; [all_points|].
    eexists. split; [reflexivity|]. split; [reflexivity|].
    simpl. tauto.
Qed.

(** The three towns in [separate] mode. *)
Lemma separate_points_towns :
  valid_gdf Demo.towns /\
  gdf_geometry Demo.towns <> [] /\
  Forall (fun og => exists x y, og = Some (Point x y))
    (gdf_geometry Demo.towns) /\
  exists df,
    output_table Demo.lib true "separate" Demo.towns = Ok df /\
    get_column "longitude" df
    = Some (mkColumn "longitude" "float64" [VFloat 1; VFloat 3; VFloat 5]%Z) /\
    names df = ["name"; "longitude"; "latitude"] /\
    ~ In "geometry_type" (names df).
Proof.
  assert (valid_gdf Demo.towns) as Hv by valid_layer.
  assert (gdf_geometry Demo.towns <> []) as Hne by discriminate.
  assert (Forall (fun og => exists x y, og = Some (Point x y))
            (gdf_geometry Demo.towns)) as Hp by all_points.
  split; [exact Hv|]. split; [exact Hne|]. split; [exact Hp|].
  destruct (separate_points Demo.lib Demo.towns Hv Hne Hp)
    as [df [lon [lat [Ht [Hc [Hlon [_ [_ [_ [Hn [Hiff _]]]]]]]]]]].
  exists df. split; [exact Ht|]. split; [|split; [exact Hn|]].
  - rewrite Hlon. f_equal.
    unfold get_column in Hlon. rewrite Hc in Hlon. now inversion Hlon.
  - intros Hin. apply Hiff in Hin. simpl in Hin. intuition discriminate.
Defined.

(** The roads, one of them without shape, in [separate] mode. *)
Lemma separate_without_points_roads :
  valid_gdf Demo.roads /\
  Forall (fun og => forall x y, og <> Some (Point x y))
    (gdf_geometry Demo.roads) /\
  exists df kind,
    output_table Demo.lib true "separate" Demo.roads = Ok df /\
    get_column "geometry_type" df = Some kind /\
    cdata kind = [VStr "LineString"; VNone; VStr "LineString"].
Proof.
  assert (valid_gdf Demo.roads) as Hv by valid_layer.
  assert (Forall (fun og => forall x y, og <> Some (Point x y))
            (gdf_geometry Demo.roads)) as Hp
    by (repeat constructor; discriminate).
  split; [exact Hv|]. split; [exact Hp|].
  destruct (separate_without_points Demo.lib Demo.roads Hv Hp)
    as [df [lon [lat [kind [Ht [_ [_ [_ [Hk [_ [_ [Hd _]]]]]]]]]]]].
  exists df, kind. split; [exact Ht|]. split; [exact Hk|]. exact Hd.
Defined.

(** C3, as stated, fails on a layer that has a [geometry_type] field: the
    derived column takes the place of the attribute, so that only
    [geometry_wkt] is appended. *)
Lemma wkt_on_geometry_type_field :
  valid_gdf Demo.clash /\
  exists df,
    output_table Demo.lib true "wkt" Demo.clash = Ok df /\
    names df = ["geometry_type"; "name"; "geometry_wkt"] /\
    names df <> attr_names Demo.clash ++ ["geometry_wkt"; "geometry_type"].
Proof.
  split; [valid_layer|].
  eexists. split; [reflexivity|]. split; [reflexivity|]. discriminate.
Qed.

(** The roads in [wkt] mode. *)
Lemma wkt_columns_roads :
  valid_gdf Demo.roads /\
  exists df wkt,
    output_table Demo.lib true "wkt" Demo.roads = Ok df /\
    names df = ["ref"; "geometry_wkt"; "geometry_type"] /\
    get_column "geometry_wkt" df = Some wkt /\
    cdata wkt
    = [VStr "LINESTRING (0 0, 4 2)"; VNone; VStr "LINESTRING (1 1, 3 5, 5 3)"].
Proof.
  assert (valid_gdf Demo.roads) as Hv by valid_layer.
  split; [exact Hv|].
  destruct (wkt_columns Demo.lib Demo.roads Hv)
    as [df [wkt [kind [Ht [_ [Hw [_ [Hd [_ [Hn _]]]]]]]]]].
  exists df, wkt. split; [exact Ht|]. split; [exact Hn|].
  split; [exact Hw | exact Hd].
Defined.

(** The towns with [--no-geometry]: the mode is not looked at. *)
Lemma geometry_excluded_towns :
  valid_gdf Demo.towns /\
  ("wkt" = "none" \/ false = false) /\
  exists df,
    output_table Demo.lib false "wkt" Demo.towns = Ok df /\
    names df = ["name"].
Proof.
  assert (valid_gdf Demo.towns) as Hv by valid_layer.
  assert ("wkt" = "none" \/ false = false) as Hm by (right; reflexivity).
  split; [exact Hv|]. split; [exact Hm|].
  destruct (geometry_excluded Demo.lib false "wkt" Demo.towns Hv Hm)
    as [df [Ht [_ [Hn _]]]].
  exists df. split; [exact Ht | exact Hn].
Defined.

(** The projected towns are brought to EPSG:4326 before their coordinates
    are written. *)
Lemma reprojection_rule_towns_utm :
  files Demo.disk "towns_utm.shp" = Some (Dataset Demo.towns_utm) /\
  gdf_crs Demo.towns_utm = Some 32633%Z /\
  to_epsg Demo.lib 32633%Z <> Some 4326%Z /\
  exists w',
    convert_shapefile_to_csv Demo.lib "towns_utm.shp" None true "separate"
      Demo.disk = (Ok "towns_utm.csv", w') /\
    files w' "towns_utm.csv"
    = Some (CsvFile (mkCsv ["name"; "longitude"; "latitude"]
                       [["a"; "1"; "2"]; ["b"; "3"; "4"]; ["c"; "5"; "6"]])).
Proof.
  assert (files Demo.disk "towns_utm.shp" = Some (Dataset Demo.towns_utm))
    as Hf by reflexivity.
  assert (gdf_crs Demo.towns_utm = Some 32633%Z) as Hc by reflexivity.
  assert (to_epsg Demo.lib 32633%Z <> Some 4326%Z) as Hne by discriminate.
  split; [exact Hf|]. split; [exact Hc|]. split; [exact Hne|].
  destruct (reprojection_rule Demo.lib "towns_utm.shp" None true "separate"
              Demo.disk Demo.towns_utm Hf) as [Hr _].
  destruct (Hr 32633%Z Hc Hne) as [_ [_ Hcsv]].
  eexists. split; [reflexivity|].
  destruct (Hcsv "towns_utm.csv" _ eq_refl) as [df [Hflat Hfile]].
  rewrite Hfile. vm_compute in Hflat. inversion Hflat; subst df.
  reflexivity.
Defined.

(** A path that names no file, and one that names the towns. *)
Lemma missing_source_nowhere :
  files Demo.disk "nowhere.shp" = None /\
  main Demo.lib (mkArgs "nowhere.shp" None "separate" false) Demo.disk
  = (1%Z, mkWorld (files Demo.disk) (write_error Demo.disk)
            [Line "Error: Shapefile not found: nowhere.shp"]) /\
  fst (main Demo.lib (mkArgs "towns.shp" None "separate" false) Demo.disk)
  = 0%Z.
Proof.
  assert (files Demo.disk "nowhere.shp" = None) as Hf by reflexivity.
  split; [exact Hf|]. split.
  - destruct (missing_source_and_exit_status Demo.lib
                (mkArgs "nowhere.shp" None "separate" false) Demo.disk)
      as [Hmissing _].
    destruct (Hmissing Hf) as [_ Hmain]. exact Hmain.
  - destruct (missing_source_and_exit_status Demo.lib
                (mkArgs "towns.shp" None "separate" false) Demo.disk)
      as [_ Hsuccess].
    destruct (Hsuccess "towns.csv" _ eq_refl) as [t [Hfile Hmain]].
    inversion Hfile; subst t. rewrite Hmain by discriminate. reflexivity.
Defined.

(** C7, as stated, fails on a layer of three towns converted with the
    unknown mode ['xy']: no branch runs, and the clean-up loop passes over
    the geometry column, whose dtype is ['geometry']: its cells are
    geometry objects, and they still are when the frame reaches the
    writer.  It also fails on an object column of geometries whose first
    cell is missing: the loop looks at the first cell only, and leaves the
    column as it is. *)
Lemma scan_skips_geometry_dtype :
  (flatten Demo.lib true "xy" (frame_of (handle_crs Demo.lib Demo.towns))
   = Ok (frame_of Demo.towns) /\
   scan_step Demo.lib (frame_of Demo.towns) "geometry"
   = Ok (frame_of Demo.towns) /\
   output_table Demo.lib true "xy" Demo.towns = Ok (frame_of Demo.towns) /\
   get_column "geometry" (frame_of Demo.towns)
   = Some (mkColumn "geometry" "geometry"
             [VGeom (Point 1 2); VGeom (Point 3 4); VGeom (Point 5 6)]%Z)) /\
  cleanup Demo.lib
    (mkFrame 2 [mkColumn "shape" "object" [VNone; VGeom (Point 1 2)%Z]])
  = Ok (mkFrame 2 [mkColumn "shape" "object" [VNone; VGeom (Point 1 2)%Z]]).
Proof. repeat split; reflexivity. Qed.

(** An object column of geometries is rewritten; the table of the towns in
    [separate] mode is not. *)
Lemma scan_rewrites_object_columns_towns :
  NoDup ["shape"] /\
  valid_gdf Demo.towns /\
  (exists df',
     cleanup Demo.lib
       (mkFrame 1 [mkColumn "shape" "object" [VGeom (Point 1 2)%Z]])
     = Ok df' /\
     map cdata (columns df') = [[VStr "POINT (1 2)"]]) /\
  exists df,
    flatten Demo.lib true "separate" (frame_of (handle_crs Demo.lib Demo.towns))
    = Ok df /\
    cleanup Demo.lib df = Ok df.
Proof.
  assert (NoDup ["shape"]) as Hnd by (repeat constructor; simpl; tauto).
  assert (valid_gdf Demo.towns) as Hv by valid_layer.
  split; [exact Hnd|]. split; [exact Hv|].
  destruct (scan_rewrites_object_columns Demo.lib) as [Hloop [_ Htable]].
  split.
  - destruct (Hloop (mkFrame 1 [mkColumn "shape" "object"
                                  [VGeom (Point 1 2)%Z]]) Hnd)
      as [df' [Hc Hcols]].
    exists df'. split; [exact Hc|]. simpl in Hcols.
    inversion Hcols as [|c c' r r' H1 H2 E1 E2]. inversion H2.
    simpl in H1. destruct H1 as [_ Hd]. simpl. now rewrite Hd.
  - eexists. split; [reflexivity|].
    exact (Htable true "separate" Demo.towns _ Hv eq_refl).
Defined.

(** C8, as stated, fails on a point layer that has a [longitude] field:
    the derived column takes the place of the attribute, so the header is
    not the attribute names followed by the derived names. *)
Lemma overwritten_longitude_header :
  valid_gdf Demo.sites /\
  exists w' t,
    convert_shapefile_to_csv Demo.lib "sites.shp" None true "separate"
      Demo.disk = (Ok "sites.csv", w') /\
    read_csv "sites.csv" w' = (Ok t, w') /\
    List.length (rows t) = num_features Demo.sites /\
    header t = ["longitude"; "name"; "latitude"] /\
    policy_columns true "separate" Demo.sites
    = ["longitude"; "name"; "longitude"; "latitude"] /\
    header t <> policy_columns true "separate" Demo.sites.
Proof.
  split; [valid_layer|].
  eexists. eexists. split; [reflexivity|]. split; [reflexivity|].
  split; [reflexivity|]. split; [reflexivity|]. split; [reflexivity|].
  discriminate.
Qed.

(** The sites, whose [longitude] field is overwritten, read back. *)
Lemma round_trip_sites :
  files Demo.disk "sites.shp" = Some (Dataset Demo.sites) /\
  valid_gdf Demo.sites /\
  destination Demo.lib "sites.shp" None = Some "sites.csv" /\
  write_error Demo.disk "sites.csv" = None /\
  exists w' t,
    convert_shapefile_to_csv Demo.lib "sites.shp" None true "separate"
      Demo.disk = (Ok "sites.csv", w') /\
    read_csv "sites.csv" w' = (Ok t, w') /\
    List.length (rows t) = 2 /\
    header t = ["longitude"; "name"; "latitude"].
Proof.
  assert (files Demo.disk "sites.shp" = Some (Dataset Demo.sites)) as Hf
    by reflexivity.
  assert (valid_gdf Demo.sites) as Hv by valid_layer.
  assert (destination Demo.lib "sites.shp" None = Some "sites.csv") as Hd
    by reflexivity.
  assert (write_error Demo.disk "sites.csv" = None) as Hw by reflexivity.
  split; [exact Hf|]. split; [exact Hv|]. split; [exact Hd|].
  split; [exact Hw|].
  destruct (round_trip Demo.lib "sites.shp" None true "separate" Demo.disk
              Demo.sites "sites.csv" Hf Hv
              (or_introl eq_refl) (fun _ _ _ => eq_refl)
              ltac:(discriminate) Hd Hw)
    as [w' [t [Hc [Hr [Hn [Hh _]]]]]].
  exists w', t. split; [exact Hc|]. split; [exact Hr|].
  split; [exact Hn|]. exact Hh.
Defined.

(** C9, as stated, fails on the same layer converted with the unknown mode
    ['xy']: the clean-up loop does not turn the geometry column into text
    (the table handed to the writer still holds geometry objects), and the
    CSV does have a [longitude] column, the attribute. *)
Lemma unknown_mode_at_sites :
  valid_gdf Demo.sites /\
  known_mode "xy" = false /\
  exists df w' t,
    output_table Demo.lib true "xy" Demo.sites = Ok df /\
    get_column "geometry" df
    = Some (mkColumn "geometry" "geometry"
              [VGeom (Point 1 2); VGeom (Point 3 4)]%Z) /\
    convert_shapefile_to_csv Demo.lib "sites.shp" None true "xy" Demo.disk
    = (Ok "sites.csv", w') /\
    files w' "sites.csv" = Some (CsvFile t) /\
    header t = ["longitude"; "name"; "geometry"] /\
    In "longitude" (header t).
Proof.
  split; [valid_layer|]. split; [reflexivity|].
  eexists. eexists. eexists.
  split; [reflexivity|]. split; [reflexivity|]. split; [reflexivity|].
  split; [reflexivity|]. split; [reflexivity|]. simpl. tauto.
Qed.

(** The towns with the unknown mode ['xy'] and an explicit destination. *)
Lemma unknown_mode_towns :
  files Demo.disk "towns.shp" = Some (Dataset Demo.towns) /\
  valid_gdf Demo.towns /\
  known_mode "xy" = false /\
  destination Demo.lib "towns.shp" (Some "out.csv") = Some "out.csv" /\
  write_error Demo.disk "out.csv" = None /\
  exists w' t,
    convert_shapefile_to_csv Demo.lib "towns.shp" (Some "out.csv") true "xy"
      Demo.disk = (Ok "out.csv", w') /\
    files w' "out.csv" = Some (CsvFile t) /\
    header t = ["name"; "geometry"] /\
    map (fun r => last r "") (rows t)
    = ["POINT (1 2)"; "POINT (3 4)"; "POINT (5 6)"].
Proof.
  assert (files Demo.disk "towns.shp" = Some (Dataset Demo.towns)) as Hf
    by reflexivity.
  assert (valid_gdf Demo.towns) as Hv by valid_layer.
  assert (known_mode "xy" = false) as Hk by reflexivity.
  assert (destination Demo.lib "towns.shp" (Some "out.csv") = Some "out.csv")
    as Hd by reflexivity.
  assert (write_error Demo.disk "out.csv" = None) as Hw by reflexivity.
  split; [exact Hf|]. split; [exact Hv|]. split; [exact Hk|].
  split; [exact Hd|]. split; [exact Hw|].
  destruct (unknown_mode_keeps_geometry Demo.lib "towns.shp" (Some "out.csv")
              "xy" Demo.disk Demo.towns "out.csv" Hf Hv Hk Hd Hw)
    as [_ [_ [w' [t [Hc [Hfile [Hh Hrows]]]]]]].
  exists w', t. split; [exact Hc|]. split; [exact Hfile|].
  split; [exact Hh | exact Hrows].
Defined.

(** The layer without features in [wkt] mode. *)
Lemma empty_layer_converts_no_towns :
  files Demo.disk "no_towns.shp" = Some (Dataset Demo.no_towns) /\
  valid_gdf Demo.no_towns /\
  num_features Demo.no_towns = 0 /\
  destination Demo.lib "no_towns.shp" None = Some "no_towns.csv" /\
  write_error Demo.disk "no_towns.csv" = None /\
  exists df w',
    cleanup Demo.lib df = Ok df /\
    convert_shapefile_to_csv Demo.lib "no_towns.shp" None true "wkt" Demo.disk
    = (Ok "no_towns.csv", w') /\
    files w' "no_towns.csv" = Some (CsvFile (mkCsv (names df) [])).
Proof.
  assert (files Demo.disk "no_towns.shp" = Some (Dataset Demo.no_towns)) as Hf
    by reflexivity.
  assert (valid_gdf Demo.no_towns) as Hv by valid_layer.
  assert (num_features Demo.no_towns = 0) as Hn by reflexivity.
  assert (destination Demo.lib "no_towns.shp" None = Some "no_towns.csv")
    as Hd by reflexivity.
  assert (write_error Demo.disk "no_towns.csv" = None) as Hw by reflexivity.
  split; [exact Hf|]. split; [exact Hv|]. split; [exact Hn|].
  split; [exact Hd|]. split; [exact Hw|].
  destruct (empty_layer_converts Demo.lib "no_towns.shp" None true "wkt"
              Demo.disk Demo.no_towns "no_towns.csv" Hf Hv Hn Hd Hw)
    as [df [w' [_ [_ [Hclean [Hc Hfile]]]]]].
  exists df, w'. split; [exact Hclean|]. split; [exact Hc | exact Hfile].
Defined.

(** * Further properties of the converter *)

Section Further.

Context {coord scalar crs : Type} (L : Library coord scalar crs).

Implicit Types (c d : column coord scalar) (cols : list (column coord scalar)).
Implicit Types (df : frame coord scalar).
Implicit Types (gs : list (option (geometry coord))).
Implicit Types (gdf : GeoDataFrame coord scalar crs).
Implicit Types (w : world coord scalar crs).

(** ** How a conversion fails *)

Lemma convert_table_raises shp_path csv_path include_geometry coord_format
  w gdf q e :
  files w shp_path = Some (Dataset gdf) ->
  destination L shp_path csv_path = Some q ->
  output_table L include_geometry coord_format gdf = Raise e ->
  convert_shapefile_to_csv L shp_path csv_path include_geometry coord_format w
  = (Raise e,
     mkWorld (files w) (write_error w)
       (stdout w ++
        [Loaded (num_features gdf);
         GeometryTypes (unique (geom_type_series (gdf_geometry gdf)));
         CrsLine (gdf_crs gdf)])).
Proof.
  intros Hfile Hdest Htable.
  unfold convert_shapefile_to_csv, path_exists. rewrite Hfile. simpl.
  unfold io_bind, io_wrap, read_file, lift, print, io_ret. simpl.
  rewrite Hfile. simpl.
  assert (match csv_path with
          | Some p => Ok p
          | None => match with_suffix_csv L shp_path with
                    | Some p => Ok p
                    | None => Raise (mkExn ValueError
                                       (shp_path ++ " has an empty name"))
                    end
          end = Ok q) as Hq.
  { unfold destination in Hdest. destruct csv_path as [p|].
    - congruence.
    - now rewrite Hdest. }
  rewrite Hq, Htable. simpl. repeat rewrite <- app_assoc. reflexivity.
Qed.

(** X5.  A source that exists but that the reader cannot load makes the
    conversion raise a plain [Exception] whose message is the reader's,
    prefixed; nothing is printed before, no file is written, and [main]
    reports the message and exits with status 1. *)
Theorem unreadable_source args w e :
  files w (shapefile args) = Some (Unreadable e) ->
  (forall csv_path include_geometry coord_format,
     convert_shapefile_to_csv L (shapefile args) csv_path include_geometry
       coord_format w
     = (Raise (mkExn Exception ("Error reading shapefile: " ++ exn_str e)),
        w)) /\
  main L args w
  = (1%Z, mkWorld (files w) (write_error w)
            (stdout w ++
             [Line ("Error: Error reading shapefile: " ++ exn_str e)])).
Proof.
  intros Hfile.
  assert (forall csv_path include_geometry coord_format,
     convert_shapefile_to_csv L (shapefile args) csv_path include_geometry
       coord_format w
     = (Raise (mkExn Exception ("Error reading shapefile: " ++ exn_str e)),
        w)) as Hraise.
  { intros. unfold convert_shapefile_to_csv, path_exists. rewrite Hfile.
    simpl. unfold io_bind, io_wrap, read_file. now rewrite Hfile. }
  split; [exact Hraise|].
  unfold main, io_bind. now rewrite Hraise.
Qed.

(** X6.  When the table is ready but the write to the destination fails,
    the conversion raises a plain [Exception] whose message is the
    writer's, prefixed; the three lines about the source have been printed,
    the line about the saved file has not, and the destination holds what
    the failed write left there: the file as it was when it could not be
    opened, a truncated file otherwise. *)
Theorem unwritable_destination shp_path csv_path include_geometry
  coord_format w gdf q df f :
  files w shp_path = Some (Dataset gdf) ->
  destination L shp_path csv_path = Some q ->
  output_table L include_geometry coord_format gdf = Ok df ->
  write_error w q = Some f ->
  exists w',
    convert_shapefile_to_csv L shp_path csv_path include_geometry
      coord_format w
    = (Raise (mkExn Exception
                ("Error saving CSV file: " ++ exn_str (failure_exn f))), w') /\
    stdout w'
    = stdout w ++
      [Loaded (num_features gdf);
       GeometryTypes (unique (geom_type_series (gdf_geometry gdf)));
       CrsLine (gdf_crs gdf)] /\
    files w' q = match failure_leaves f with
                 | Some t => Some (CsvFile t)
                 | None => files w q
                 end.
Proof.
  intros Hfile Hdest Htable Hwrite.
  unfold convert_shapefile_to_csv, path_exists. rewrite Hfile. simpl.
  unfold io_bind, io_wrap, read_file, lift, print, io_ret, to_csv. simpl.
  rewrite Hfile. simpl.
  assert (match csv_path with
          | Some p => Ok p
          | None => match with_suffix_csv L shp_path with
                    | Some p => Ok p
                    | None => Raise (mkExn ValueError
                                       (shp_path ++ " has an empty name"))
                    end
          end = Ok q) as Hq.
  { unfold destination in Hdest. destruct csv_path as [p|].
    - congruence.
    - now rewrite Hdest. }
  rewrite Hq, Htable. simpl. rewrite Hwrite. simpl.
  eexists. split; [reflexivity|].
  destruct (failure_leaves f) as [t|]; simpl.
  - split; [now repeat rewrite <- app_assoc|]. now rewrite String.eqb_refl.
  - split; [now repeat rewrite <- app_assoc | reflexivity].
Qed.

(** X7.  On the command line, [--no-geometry] with any [--coord-format]
    does exactly what [--coord-format none] does: same exit status, same
    files, same output. *)
Theorem no_geometry_is_none p o coord_format w :
  main L (mkArgs p o coord_format true) w = main L (mkArgs p o "none" false) w.
Proof.
  assert (forall gdf,
            output_table L false coord_format gdf
            = output_table L true "none" gdf) as Htable.
  { intros gdf. unfold output_table, flatten. simpl.
    now rewrite orb_true_r. }
  assert (convert_shapefile_to_csv L p o false coord_format w
          = convert_shapefile_to_csv L p o true "none" w) as Hconv.
  { unfold convert_shapefile_to_csv.
    destruct (negb (path_exists w p)); [reflexivity|].
    unfold io_bind, io_wrap, read_file, lift, print, io_ret.
    destruct (files w p) as [[gdf|e|t]|]; simpl; try reflexivity.
    now rewrite Htable. }
  unfold main. simpl. unfold io_bind at 1 5. now rewrite Hconv.
Qed.

(** ** The modes compared *)

Lemma centroid_frame n gs (attrs : list (attr_column scalar)) df :
  ~ In "geometry" (map aname attrs) ->
  df = mkFrame n
         (puts [longitude_of L (centroid_series L gs);
                latitude_of L (centroid_series L gs);
                geometry_type_of L gs]
            (map (column_of_attr (coord:=coord)) attrs)) ->
  exists lon lat kind,
    get_column "longitude" df = Some lon /\
    get_column "latitude" df = Some lat /\
    get_column "geometry_type" df = Some kind /\
    cdata lon = map (fun og => match og with
                               | Some g => VFloat (fst (centroid L g))
                               | None => VFloat (nan L)
                               end) gs /\
    cdata lat = map (fun og => match og with
                               | Some g => VFloat (snd (centroid L g))
                               | None => VFloat (nan L)
                               end) gs /\
    cdata kind = map (fun og => match og with
                                | Some g => VStr (geom_type g)
                                | None => VNone
                                end) gs /\
    ~ In "geometry" (names df).
Proof.
  intros Hres Hdf. subst df.
  exists (longitude_of L (centroid_series L gs)),
    (latitude_of L (centroid_series L gs)), (geometry_type_of L gs).
  split.
  { unfold get_column, puts. simpl.
    change "longitude"
      with (cname (longitude_of (scalar:=scalar) L (centroid_series L gs))).
    rewrite !put_find_other by discriminate. apply put_find_same. }
  split.
  { unfold get_column, puts. simpl.
    change "latitude"
      with (cname (latitude_of (scalar:=scalar) L (centroid_series L gs))).
    rewrite put_find_other by discriminate. apply put_find_same. }
  split.
  { unfold get_column, puts. simpl.
    change "geometry_type"
      with (cname (geometry_type_of (scalar:=scalar) L gs)).
    apply put_find_same. }
  split.
  { simpl. unfold centroid_series. rewrite map_map. apply map_ext.
    intros [g|]; simpl; [|reflexivity]. now destruct (centroid L g). }
  split.
  { simpl. unfold centroid_series. rewrite map_map. apply map_ext.
    intros [g|]; simpl; [|reflexivity]. now destruct (centroid L g). }
  split.
  { simpl. unfold geom_type_series. rewrite map_map. apply map_ext.
    now intros [g|]. }
  unfold names. cbn [columns]. intros Hin.
  apply puts_labels_from in Hin. rewrite attr_labels in Hin.
  destruct Hin as [Hin|Hin]; [contradiction|].
  simpl in Hin. now destruct Hin as [?|[?|[?|[]]]].
Qed.

(** X1.  [centroid] mode never raises, whatever the mix of geometry types:
    the table has [longitude] and [latitude] holding each centroid's
    coordinates (nan for a missing shape), [geometry_type] holding each
    type name, and no [geometry] column. *)
Theorem centroid_mode gdf :
  valid_gdf gdf ->
  exists df lon lat kind,
    output_table L true "centroid" gdf = Ok df /\
    get_column "longitude" df = Some lon /\
    get_column "latitude" df = Some lat /\
    get_column "geometry_type" df = Some kind /\
    cdata lon = map (fun og => match og with
                               | Some g => VFloat (fst (centroid L g))
                               | None => VFloat (nan L)
                               end) (gdf_geometry (handle_crs L gdf)) /\
    cdata lat = map (fun og => match og with
                               | Some g => VFloat (snd (centroid L g))
                               | None => VFloat (nan L)
                               end) (gdf_geometry (handle_crs L gdf)) /\
    cdata kind = map (fun og => match og with
                                | Some g => VStr (geom_type g)
                                | None => VNone
                                end) (gdf_geometry (handle_crs L gdf)) /\
    ~ In "geometry" (names df).
Proof.
  intros Hv.
  destruct (centroid_frame (num_features gdf)
              (gdf_geometry (handle_crs L gdf)) (gdf_attrs gdf) _
              (geometry_reserved _ Hv) eq_refl)
    as [lon [lat [kind H]]].
  eexists. exists lon, lat, kind. split; [|exact H].
  now rewrite output_table_known by auto.
Qed.

(** X2.  On a layer without a Point, [separate] mode and [centroid] mode
    hand the same table to the writer. *)
Theorem separate_is_centroid_without_points gdf :
  valid_gdf gdf ->
  has_point (gdf_geometry gdf) = false ->
  output_table L true "separate" gdf = output_table L true "centroid" gdf.
Proof.
  intros Hv Hp. rewrite !output_table_known by auto.
  unfold derived. simpl. now rewrite handle_crs_has_point, Hp.
Qed.

(** X3.  [separate] mode on a layer of Points some of whose features have
    no shape: the point branch runs, a feature without shape gets nan in
    both columns, and the labels are the attribute names followed by
    [longitude] and [latitude] where these are not attribute names already,
    so that no [geometry_type] column is added. *)
Theorem separate_points_and_gaps gdf :
  valid_gdf gdf ->
  has_point (gdf_geometry gdf) = true ->
  all_points_or_missing (gdf_geometry gdf) = true ->
  exists df lon lat,
    output_table L true "separate" gdf = Ok df /\
    get_column "longitude" df = Some lon /\
    get_column "latitude" df = Some lat /\
    Forall2 (fun og v => match og with
                         | Some (Point x y) => v = VFloat x
                         | Some _ => False
                         | None => v = VFloat (nan L)
                         end) (gdf_geometry (handle_crs L gdf)) (cdata lon) /\
    Forall2 (fun og v => match og with
                         | Some (Point x y) => v = VFloat y
                         | Some _ => False
                         | None => v = VFloat (nan L)
                         end) (gdf_geometry (handle_crs L gdf)) (cdata lat) /\
    names df
    = attr_names gdf ++
      filter (absent_from (attr_names gdf)) ["longitude"; "latitude"] /\
    ~ In "geometry" (names df).
Proof.
  intros Hv Hp Ha.
  set (gs := gdf_geometry (handle_crs L gdf)).
  assert (all_points_or_missing gs = true) as Ha'
    by (unfold gs; now rewrite handle_crs_all_points).
  exists (mkFrame (num_features gdf)
            (puts [longitude_of L gs; latitude_of L gs]
               (map column_of_attr (gdf_attrs gdf)))),
    (longitude_of L gs), (latitude_of L gs).
  split.
  { rewrite output_table_known by auto.
    unfold derived. simpl. fold gs.
    unfold gs at 1. rewrite handle_crs_has_point, Hp. now rewrite Ha'. }
  split.
  { unfold get_column, puts. simpl.
    change "longitude" with (cname (longitude_of (scalar:=scalar) L gs)).
    rewrite put_find_other by discriminate. apply put_find_same. }
  split.
  { unfold get_column, puts. simpl.
    change "latitude" with (cname (latitude_of (scalar:=scalar) L gs)).
    apply put_find_same. }
  split.
  { simpl. clear -Ha'. unfold all_points_or_missing in Ha'.
    induction gs as [|[g|] r IH]; simpl in *; constructor.
    - apply andb_true_iff in Ha'. destruct g; try easy.
    - apply andb_true_iff in Ha'. now apply IH.
    - reflexivity.
    - now apply IH. }
  split.
  { simpl. clear -Ha'. unfold all_points_or_missing in Ha'.
    induction gs as [|[g|] r IH]; simpl in *; constructor.
    - apply andb_true_iff in Ha'. destruct g; try easy.
    - apply andb_true_iff in Ha'. now apply IH.
    - reflexivity.
    - now apply IH. }
  split.
  - unfold names. cbn [columns].
    rewrite puts_labels, attr_labels; [reflexivity|].
    repeat constructor; simpl; intuition discriminate.
  - unfold names. cbn [columns]. intros Hin.
    apply puts_labels_from in Hin. rewrite attr_labels in Hin.
    destruct Hin as [Hin|Hin].
    + now apply (geometry_reserved _ Hv).
    + simpl in Hin. now destruct Hin as [?|[?|[]]].
Qed.

Lemma separate_mixed_raises gdf :
  valid_gdf gdf ->
  has_point (gdf_geometry gdf) = true ->
  all_points_or_missing (gdf_geometry gdf) = false ->
  output_table L true "separate" gdf = Raise only_points.
Proof.
  intros Hv Hp Ha. rewrite output_table_known by auto.
  unfold derived. simpl.
  now rewrite handle_crs_has_point, handle_crs_all_points, Hp, Ha.
Qed.

(** X16.  The one way the table can fail to be built: [separate] mode,
    geometry included, on a layer that has a Point and also a shape that is
    not a Point; the exception is then the ValueError of the x accessor.
    Every other mode, recognised or not, builds its table on every
    layer. *)
Theorem table_raises_iff include_geometry coord_format gdf e :
  valid_gdf gdf ->
  output_table L include_geometry coord_format gdf = Raise e <->
  e = only_points /\ include_geometry = true /\ coord_format = "separate" /\
  has_point (gdf_geometry gdf) = true /\
  all_points_or_missing (gdf_geometry gdf) = false.
Proof.
  intros Hv. split.
  - destruct (known_mode coord_format || negb include_geometry) eqn:E.
    + assert (known_mode coord_format = true \/ include_geometry = false)
        as Hmode.
      { apply orb_true_iff in E. destruct E as [E|E]; [now left|].
        right. now apply negb_true_iff. }
      rewrite output_table_known by assumption.
      unfold derived.
      rewrite handle_crs_has_point, handle_crs_all_points.
      destruct ((coord_format =? "none") || negb include_geometry) eqn:E0;
        [discriminate|].
      apply orb_false_iff in E0. destruct E0 as [_ Hi].
      apply negb_false_iff in Hi.
      destruct (coord_format =? "separate") eqn:E1.
      * apply String.eqb_eq in E1.
        destruct (has_point (gdf_geometry gdf)); [|discriminate].
        destruct (all_points_or_missing (gdf_geometry gdf)); [discriminate|].
        simpl. intros H. inversion H. auto.
      * destruct (coord_format =? "centroid"); [discriminate|].
        destruct (coord_format =? "wkt"); discriminate.
    + apply orb_false_iff in E. destruct E as [Hk Hi].
      apply negb_false_iff in Hi. subst include_geometry.
      rewrite output_table_unknown by assumption. discriminate.
  - intros [He [Hi [Hm [Hp Ha]]]]. subst.
    now apply separate_mixed_raises.
Qed.

(** X4.  From the command line, [separate] mode on a layer that mixes
    Points with other shapes: the conversion raises the ValueError after the
    three lines about the source, writes nothing, and [main] exits with
    status 1 after printing the error. *)
Theorem mixed_layer_fails args w gdf q :
  files w (shapefile args) = Some (Dataset gdf) ->
  valid_gdf gdf ->
  coord_format_arg args = "separate" ->
  no_geometry args = false ->
  has_point (gdf_geometry gdf) = true ->
  all_points_or_missing (gdf_geometry gdf) = false ->
  destination L (shapefile args) (output_path args) = Some q ->
  convert_shapefile_to_csv L (shapefile args) (output_path args) true
    "separate" w
  = (Raise only_points,
     mkWorld (files w) (write_error w)
       (stdout w ++
        [Loaded (num_features gdf);
         GeometryTypes (unique (geom_type_series (gdf_geometry gdf)));
         CrsLine (gdf_crs gdf)])) /\
  main L args w
  = (1%Z,
     mkWorld (files w) (write_error w)
       (stdout w ++
        [Loaded (num_features gdf);
         GeometryTypes (unique (geom_type_series (gdf_geometry gdf)));
         CrsLine (gdf_crs gdf);
         Line "Error: x attribute access only provided for Point geometries"])).
Proof.
  intros Hfile Hv Hm Hn Hp Ha Hdest.
  assert (output_table L true "separate" gdf = Raise only_points) as Htable.
  { now apply separate_mixed_raises. }
  pose proof (convert_table_raises _ _ _ _ _ _ _ _ Hfile Hdest Htable) as Hc.
  split; [exact Hc|].
  unfold main, io_bind. rewrite Hm, Hn. simpl negb. rewrite Hc.
  cbn [files write_error stdout]. now rewrite <- app_assoc.
Qed.

(** ** Invariants of the table *)

Lemma derived_aligned include_geometry coord_format gs cs :
  derived (scalar:=scalar) L include_geometry coord_format gs = Ok cs ->
  Forall (fun c => List.length (cdata c) = List.length gs) cs.
Proof.
  unfold derived. intros H.
  repeat match type of H with
         | (if ?b then _ else _) = _ => destruct b
         end;
  inversion H; subst;
  repeat constructor; simpl;
  unfold to_wkt_series, geom_type_series, centroid_series;
  now rewrite ?length_map.
Qed.

Lemma table_index include_geometry coord_format gdf df :
  valid_gdf gdf ->
  output_table L include_geometry coord_format gdf = Ok df ->
  index_len df = num_features gdf.
Proof.
  intros Hv.
  destruct (known_mode coord_format || negb include_geometry) eqn:E.
  - assert (known_mode coord_format = true \/ include_geometry = false)
      as Hmode.
    { apply orb_true_iff in E. destruct E as [E|E]; [now left|].
      right. now apply negb_true_iff. }
    rewrite output_table_known by assumption.
    destruct (derived _ _ _ _) as [cs|e]; simpl; [|discriminate].
    intros H. now inversion H.
  - apply orb_false_iff in E. destruct E as [Hk Hi].
    apply negb_false_iff in Hi. subst include_geometry.
    rewrite output_table_unknown by assumption.
    intros H. inversion H; subst. apply handle_crs_count.
Qed.

(** X9.  Whatever the mode, the table handed to the writer is well formed:
    its index has one entry per feature, its labels are distinct, and every
    column holds exactly one cell per feature. *)
Theorem table_aligned include_geometry coord_format gdf df :
  valid_gdf gdf ->
  output_table L include_geometry coord_format gdf = Ok df ->
  index_len df = num_features gdf /\
  NoDup (names df) /\
  Forall (fun c => List.length (cdata c) = num_features gdf) (columns df).
Proof.
  intros Hv.
  assert (Forall (fun c : column coord scalar =>
                    List.length (cdata c) = num_features gdf)
            (map column_of_attr (gdf_attrs gdf))) as Hattrs.
  { pose proof (rows_aligned _ Hv) as Hr.
    apply Forall_forall. intros c Hc. apply in_map_iff in Hc.
    destruct Hc as [a [Ha Hin]]. subst c. simpl. rewrite length_map.
    rewrite Forall_forall in Hr. now apply Hr. }
  destruct (known_mode coord_format || negb include_geometry) eqn:E.
  - assert (known_mode coord_format = true \/ include_geometry = false)
      as Hmode.
    { apply orb_true_iff in E. destruct E as [E|E]; [now left|].
      right. now apply negb_true_iff. }
    rewrite output_table_known by assumption.
    destruct (derived _ _ _ _) as [cs|e] eqn:Hcs; simpl; [|discriminate].
    intros H. inversion H; subst. simpl.
    split; [reflexivity|]. split.
    + unfold names. simpl. apply puts_nodup. rewrite attr_labels.
      exact (names_distinct _ Hv).
    + apply puts_Forall; [|assumption].
      apply derived_aligned in Hcs.
      eapply Forall_impl; [|exact Hcs]. intros c Hc. rewrite Hc.
      exact (handle_crs_count L gdf).
  - apply orb_false_iff in E. destruct E as [Hk Hi].
    apply negb_false_iff in Hi. subst include_geometry.
    rewrite output_table_unknown by assumption.
    intros H. inversion H; subst.
    split; [apply handle_crs_count|]. split.
    + apply frame_of_nodup. now apply handle_crs_valid.
    + unfold frame_of. simpl. rewrite handle_crs_attrs.
      apply Forall_app. split; [assumption|].
      constructor; [|constructor]. simpl. rewrite length_map.
      exact (handle_crs_count L gdf).
Qed.

(** ** The clean-up loop on any frame *)

Lemma scan_column_settled c : scanned (scan_column L c) = false.
Proof.
  unfold scan_column. destruct (scanned c) eqn:E; [|exact E].
  unfold scanned in E. apply andb_true_iff in E. destruct E as [_ E].
  unfold scanned, astype_str. cbn [cdtype cdata].
  destruct (cdata c) as [|v r]; [discriminate|].
  destruct v; try discriminate. simpl. apply andb_false_r.
Qed.

(** X10.  On any frame with distinct labels the clean-up loop returns: it
    keeps the index, the labels and their order and the length of every
    column; a column is rewritten exactly when its dtype is ['object'] and
    its first cell is a geometry, and then it is what [astype(str)] makes
    of it, whose dtype and whose treatment of missing cells are the
    library's; running the loop again changes nothing. *)
Theorem cleanup_loop df :
  NoDup (names df) ->
  exists df',
    cleanup L df = Ok df' /\
    index_len df' = index_len df /\
    names df' = names df /\
    Forall2 (fun c c' =>
               List.length (cdata c') = List.length (cdata c) /\
               if scanned c
               then cdtype c' = astype_str_dtype L /\
                    cdata c' = map (str_cell L) (cdata c)
               else c' = c)
      (columns df) (columns df') /\
    cleanup L df' = Ok df'.
Proof.
  intros Hnd.
  exists (mkFrame (index_len df) (map (scan_column L) (columns df))).
  split; [now apply cleanup_columns|].
  split; [reflexivity|].
  assert (map cname (map (scan_column L) (columns df)) = names df) as Hl.
  { unfold names. rewrite map_map. apply map_ext. apply scan_column_label. }
  split; [exact Hl|]. split.
  - simpl. clear. induction (columns df) as [|c r IH]; simpl; constructor;
      [|exact IH].
    unfold scan_column. destruct (scanned c); simpl.
    + split; [apply length_map | now split].
    + now split.
  - apply cleanup_untouched.
    + unfold names. simpl. now rewrite Hl.
    + simpl. apply Forall_forall. intros c Hc. apply in_map_iff in Hc.
      destruct Hc as [d [Hd _]]. subst c. apply scan_column_settled.
Qed.

(** ** The exit status *)

(** X11.  Once [parse_args] has returned the arguments, the rest of [main]
    (lines 162-180) exits with status 0 or 1, and with 0 exactly when the
    conversion returned a path and the CSV at that path has a column to
    read back.  (A command line that argparse refuses, or [--help], ends
    the process on line 160, with argparse's own status.) *)
Theorem exit_status args w :
  (fst (main L args w) = 0%Z \/ fst (main L args w) = 1%Z) /\
  (fst (main L args w) = 0%Z <->
   exists q w' t,
     convert_shapefile_to_csv L (shapefile args) (output_path args)
       (negb (no_geometry args)) (coord_format_arg args) w = (Ok q, w') /\
     files w' q = Some (CsvFile t) /\
     header t <> []).
Proof.
  unfold main, io_bind.
  destruct (convert_shapefile_to_csv L (shapefile args) (output_path args)
              (negb (no_geometry args)) (coord_format_arg args) w)
    as [[q|e] w'] eqn:Hconv.
  - destruct (convert_returns _ _ _ _ _ _ _ _ Hconv)
      as [gdf [df [Hfile [Hdest [Htable Hwrite]]]]].
    pose proof (convert_runs _ _ _ _ _ _ _ _ _ Hfile Hdest Htable Hwrite)
      as Hrun.
    rewrite Hconv in Hrun. inversion Hrun as [Hw']. clear Hrun.
    unfold print, read_csv. cbn [files write_error stdout].
    rewrite String.eqb_refl.
    destruct (header (csv_of_frame L df)) as [|n ns] eqn:En; simpl.
    + split; [now right|]. split; [discriminate|].
      intros [q' [w'' [t [Heq [Ht Hh]]]]]. inversion Heq; subst q' w''.
      simpl in Ht. rewrite String.eqb_refl in Ht. inversion Ht; subst t.
      now rewrite En in Hh.
    + split; [now left|]. split; [|reflexivity].
      intros _. eexists. eexists. eexists. split; [reflexivity|].
      split; [simpl; now rewrite String.eqb_refl|].
      rewrite En. discriminate.
  - simpl. split; [now right|]. split; [discriminate|].
    intros [q' [w'' [t [Heq _]]]]. discriminate.
Qed.

(** X15.  When [main] exits with status 0 on a layer, the last thing it
    printed is the preview: the header of the CSV and its first records,
    five of them or as many as the layer has features when it has fewer. *)
Theorem preview_rows args w gdf :
  files w (shapefile args) = Some (Dataset gdf) ->
  valid_gdf gdf ->
  fst (main L args w) = 0%Z ->
  exists before t,
    stdout (snd (main L args w)) = before ++ [Preview t] /\
    List.length (rows t) = Nat.min 5 (num_features gdf).
Proof.
  intros Hfile Hv. unfold main, io_bind.
  destruct (convert_shapefile_to_csv L (shapefile args) (output_path args)
              (negb (no_geometry args)) (coord_format_arg args) w)
    as [[q|e] w'] eqn:Hconv; [|discriminate].
  destruct (convert_returns _ _ _ _ _ _ _ _ Hconv)
    as [gdf' [df [Hfile' [Hdest [Htable Hwrite]]]]].
  rewrite Hfile in Hfile'. inversion Hfile'; subst gdf'.
  pose proof (convert_runs _ _ _ _ _ _ _ _ _ Hfile Hdest Htable Hwrite)
    as Hrun.
  rewrite Hconv in Hrun. inversion Hrun as [Hw']. clear Hrun.
  pose proof (table_index _ _ _ _ Hv Htable) as Hlen.
  unfold print, read_csv. cbn [files write_error stdout].
  rewrite String.eqb_refl.
  destruct (header (csv_of_frame L df)) as [|n ns] eqn:En;
    cbn [fst snd stdout files write_error]; [discriminate|].
  intros _. eexists. eexists. split; [reflexivity|].
  cbn [rows csv_of_frame].
  now rewrite length_firstn, length_map, length_seq, Hlen.
Qed.

(** ** Converting again *)


(** ** The CRS step *)

(** X14.  Provided the library reports code 4326 for the CRS it builds from
    ['EPSG:4326'], the CRS step need not be repeated: after it the layer
    either declares no CRS or one whose code is 4326, and a second pass
    leaves it as it is. *)
Theorem crs_step_settles gdf :
  to_epsg L (wgs84 L) = Some 4326%Z ->
  match gdf_crs (handle_crs L gdf) with
  | Some src => to_epsg L src = Some 4326%Z
  | None => gdf_crs gdf = None
  end /\
  handle_crs L (handle_crs L gdf) = handle_crs L gdf.
Proof.
  intros Hw. destruct (gdf_crs gdf) as [src|] eqn:Hc.
  - destruct (epsg_differs (to_epsg L src) 4326) eqn:E.
    + assert (handle_crs L gdf = to_crs L src gdf) as H
        by (unfold handle_crs; now rewrite Hc, E).
      rewrite H. simpl. split; [exact Hw|].
      unfold handle_crs. simpl. now rewrite Hw.
    + assert (handle_crs L gdf = gdf) as H
        by (unfold handle_crs; now rewrite Hc, E).
      rewrite H, Hc. split; [|exact H].
      unfold epsg_differs in E.
      destruct (to_epsg L src) as [m|]; [|discriminate].
      apply negb_false_iff, Z.eqb_eq in E. now subst m.
  - assert (handle_crs L gdf = gdf) as H
      by (unfold handle_crs; now rewrite Hc).
    rewrite H, Hc. now split.
Qed.

(** ** The destination and the report *)

(** X17.  Without [-o], a source path from which no destination can be
    derived makes the conversion raise ValueError once the source has been
    read and reported on, whatever the mode, even one that could not have
    been flattened; no file is written. *)
Theorem underivable_destination shp_path include_geometry coord_format w gdf :
  files w shp_path = Some (Dataset gdf) ->
  with_suffix_csv L shp_path = None ->
  exists e,
    exn_kind e = ValueError /\
    convert_shapefile_to_csv L shp_path None include_geometry coord_format w
    = (Raise e,
       mkWorld (files w) (write_error w)
         (stdout w ++
          [Loaded (num_features gdf);
           GeometryTypes (unique (geom_type_series (gdf_geometry gdf)));
           CrsLine (gdf_crs gdf)])).
Proof.
  intros Hfile Hnone. eexists. split; [|].
  2:{ unfold convert_shapefile_to_csv, path_exists. rewrite Hfile. simpl.
      unfold io_bind, io_wrap, read_file, lift, print, io_ret. simpl.
      rewrite Hfile. simpl. rewrite Hnone. simpl.
      repeat rewrite <- app_assoc. reflexivity. }
  reflexivity.
Qed.

(** X18.  What a conversion that returns has printed is consistent with
    what it wrote: after the three lines about the source come the
    destination, the shape of the CSV (one record per feature, and the
    number of header fields) and the header itself. *)
Theorem report_matches_csv shp_path csv_path include_geometry coord_format
  w gdf q w' :
  files w shp_path = Some (Dataset gdf) ->
  valid_gdf gdf ->
  convert_shapefile_to_csv L shp_path csv_path include_geometry coord_format w
  = (Ok q, w') ->
  exists t,
    files w' q = Some (CsvFile t) /\
    List.length (rows t) = num_features gdf /\
    stdout w'
    = stdout w ++
      [Loaded (num_features gdf);
       GeometryTypes (unique (geom_type_series (gdf_geometry gdf)));
       CrsLine (gdf_crs gdf);
       Saved q;
       ShapeLine (List.length (rows t)) (List.length (header t));
       ColumnsLine (header t)].
Proof.
  intros Hfile Hv Hconv.
  destruct (convert_returns _ _ _ _ _ _ _ _ Hconv)
    as [gdf' [df [Hfile' [Hdest [Htable Hwrite]]]]].
  rewrite Hfile in Hfile'. inversion Hfile'; subst gdf'.
  pose proof (convert_runs _ _ _ _ _ _ _ _ _ Hfile Hdest Htable Hwrite)
    as Hrun.
  rewrite Hconv in Hrun. inversion Hrun as [Hw']. clear Hrun.
  pose proof (table_index _ _ _ _ Hv Htable) as Hlen.
  exists (csv_of_frame L df).
  split; [cbn [files]; now rewrite String.eqb_refl|].
  split.
  - cbn [rows csv_of_frame]. now rewrite length_map, length_seq.
  - cbn [stdout rows header csv_of_frame].
    rewrite length_map, length_seq. unfold names. now rewrite length_map.
Qed.

(** ** What becomes of the attributes *)

Lemma find_attr (attrs : list (attr_column scalar)) a :
  NoDup (map aname attrs) ->
  In a attrs ->
  find (fun c : column coord scalar => cname c =? aname a)
    (map column_of_attr attrs)
  = Some (column_of_attr a).
Proof.
  induction attrs as [|b r IH]; simpl; intros Hnd Hin; [contradiction|].
  inversion Hnd as [|? ? Hb Hr]; subst.
  destruct Hin as [Heq|Hin].
  - subst b. now rewrite String.eqb_refl.
  - destruct (aname b =? aname a) eqn:E.
    + apply String.eqb_eq in E. exfalso. apply Hb. rewrite E.
      now apply in_map.
    + now apply IH.
Qed.

Lemma find_in_front {A} (f : A -> bool) (l r : list A) (x : A) :
  find f l = Some x -> find f (l ++ r) = Some x.
Proof.
  induction l as [|a l' IH]; simpl; [discriminate|].
  destruct (f a); [trivial | exact IH].
Qed.

Lemma puts_find_other g cs : forall cols,
  ~ In g (map cname cs) ->
  find (fun d => cname d =? g) (puts cs cols)
  = find (fun d => cname d =? g) cols.
Proof.
  induction cs as [|c r IH]; intros cols Hg; simpl; [reflexivity|].
  rewrite IH by (intros H; apply Hg; now right).
  apply put_find_other. intros H. apply Hg. now left.
Qed.

(** X19.  Whatever the mode, an attribute whose name is none of
    [longitude], [latitude], [geometry_type], [geometry_wkt] reaches the
    writer as it was read: same label, same dtype, same values. *)
Theorem attribute_kept include_geometry coord_format gdf df a :
  valid_gdf gdf ->
  output_table L include_geometry coord_format gdf = Ok df ->
  In a (gdf_attrs gdf) ->
  ~ In (aname a)
      ["longitude"; "latitude"; "geometry_type"; "geometry_wkt"] ->
  get_column (aname a) df = Some (column_of_attr a).
Proof.
  intros Hv Htable Ha Hname.
  pose proof (find_attr (gdf_attrs gdf) a (names_distinct _ Hv) Ha) as Hfind.
  destruct (known_mode coord_format || negb include_geometry) eqn:E.
  - assert (known_mode coord_format = true \/ include_geometry = false)
      as Hmode.
    { apply orb_true_iff in E. destruct E as [E|E]; [now left|].
      right. now apply negb_true_iff. }
    rewrite output_table_known in Htable by assumption.
    destruct (derived _ _ _ _) as [cs|e] eqn:Hcs; simpl in Htable;
      [|discriminate].
    inversion Htable; subst df. unfold get_column. cbn [columns].
    rewrite puts_find_other; [exact Hfind|].
    rewrite (derived_labels _ _ _ _ _ Hcs). intros Hin. apply Hname.
    destruct include_geometry; [|contradiction].
    unfold policy_derived in Hin.
    repeat match type of Hin with
           | In _ (if ?b then _ else _) => destruct b
           end;
    simpl in *; tauto.
  - apply orb_false_iff in E. destruct E as [Hk Hi].
    apply negb_false_iff in Hi. subst include_geometry.
    rewrite output_table_unknown in Htable by assumption.
    inversion Htable; subst df. unfold get_column, frame_of. cbn [columns].
    rewrite handle_crs_attrs.
    now apply find_in_front.
Qed.

End Further.

(** * The further properties on concrete layers *)

(** A file that is not a vector dataset. *)
Lemma unreadable_source_broken :
  files Demo.office "broken.shp"
  = Some (Unreadable
            (mkExn OSError "not recognized as a supported file format")) /\
  main Demo.lib (mkArgs "broken.shp" None "separate" false) Demo.office
  = (1%Z,
     mkWorld (files Demo.office) (write_error Demo.office)
       [Line "Error: Error reading shapefile: not recognized as a supported file format"]).
Proof.
  assert (files Demo.office "broken.shp"
          = Some (Unreadable
                    (mkExn OSError "not recognized as a supported file format")))
    as Hf by reflexivity.
  split; [exact Hf|].
  destruct (unreadable_source Demo.lib
              (mkArgs "broken.shp" None "separate" false) Demo.office _ Hf)
    as [_ Hmain].
  exact Hmain.
Defined.

(** The towns sent to a write-protected destination, which is left as it
    was, and to a full device, where an empty file is left. *)
Lemma unwritable_destination_locked :
  files Demo.office "towns.shp" = Some (Dataset Demo.towns) /\
  write_error Demo.office "locked.csv"
  = Some (mkFailure (mkExn OSError "Permission denied") None) /\
  write_error Demo.office "full.csv"
  = Some (mkFailure (mkExn OSError "No space left on device")
            (Some (mkCsv [] []))) /\
  fst (convert_shapefile_to_csv Demo.lib "towns.shp" (Some "locked.csv") true
         "separate" Demo.office)
  = Raise (mkExn Exception "Error saving CSV file: Permission denied") /\
  files (snd (convert_shapefile_to_csv Demo.lib "towns.shp"
                (Some "locked.csv") true "separate" Demo.office)) "locked.csv"
  = None /\
  fst (convert_shapefile_to_csv Demo.lib "towns.shp" (Some "full.csv") true
         "separate" Demo.office)
  = Raise (mkExn Exception "Error saving CSV file: No space left on device") /\
  files (snd (convert_shapefile_to_csv Demo.lib "towns.shp"
                (Some "full.csv") true "separate" Demo.office)) "full.csv"
  = Some (CsvFile (mkCsv [] [])).
Proof.
  assert (files Demo.office "towns.shp" = Some (Dataset Demo.towns)) as Hf
    by reflexivity.
  assert (write_error Demo.office "locked.csv"
          = Some (mkFailure (mkExn OSError "Permission denied") None))
    as Hw by reflexivity.
  assert (write_error Demo.office "full.csv"
          = Some (mkFailure (mkExn OSError "No space left on device")
                    (Some (mkCsv [] [])))) as Hw' by reflexivity.
  split; [exact Hf|]. split; [exact Hw|]. split; [exact Hw'|].
  destruct (unwritable_destination Demo.lib "towns.shp" (Some "locked.csv")
              true "separate" Demo.office Demo.towns "locked.csv" _ _
              Hf eq_refl eq_refl Hw) as [w1 [Hc1 [_ Hq1]]].
  destruct (unwritable_destination Demo.lib "towns.shp" (Some "full.csv")
              true "separate" Demo.office Demo.towns "full.csv" _ _
              Hf eq_refl eq_refl Hw') as [w2 [Hc2 [_ Hq2]]].
  rewrite Hc1, Hc2. cbn [fst snd].
  split; [reflexivity|]. split; [exact Hq1|].
  split; [reflexivity | exact Hq2].
Defined.

(** The mixed layer in [centroid] mode. *)
Lemma centroid_mode_mixed :
  valid_gdf Demo.mixed /\
  exists df kind,
    output_table Demo.lib true "centroid" Demo.mixed = Ok df /\
    get_column "geometry_type" df = Some kind /\
    cdata kind = [VStr "Point"; VStr "LineString"].
Proof.
  assert (valid_gdf Demo.mixed) as Hv by valid_layer.
  split; [exact Hv|].
  destruct (centroid_mode Demo.lib Demo.mixed Hv)
    as [df [lon [lat [kind [Ht [_ [_ [Hk [_ [_ [Hd _]]]]]]]]]]].
  exists df, kind. split; [exact Ht|]. split; [exact Hk | exact Hd].
Defined.

(** The roads: [separate] and [centroid] agree. *)
Lemma separate_is_centroid_roads :
  valid_gdf Demo.roads /\
  has_point (gdf_geometry Demo.roads) = false /\
  output_table Demo.lib true "separate" Demo.roads
  = output_table Demo.lib true "centroid" Demo.roads.
Proof.
  assert (valid_gdf Demo.roads) as Hv by valid_layer.
  assert (has_point (gdf_geometry Demo.roads) = false) as Hp by reflexivity.
  split; [exact Hv|]. split; [exact Hp|].
  exact (separate_is_centroid_without_points Demo.lib Demo.roads Hv Hp).
Defined.

(** The stops, one of them without shape. *)
Lemma separate_points_and_gaps_stops :
  valid_gdf Demo.stops /\
  has_point (gdf_geometry Demo.stops) = true /\
  all_points_or_missing (gdf_geometry Demo.stops) = true /\
  exists df,
    output_table Demo.lib true "separate" Demo.stops = Ok df /\
    names df = ["name"; "longitude"; "latitude"].
Proof.
  assert (valid_gdf Demo.stops) as Hv by valid_layer.
  assert (has_point (gdf_geometry Demo.stops) = true) as Hp by reflexivity.
  assert (all_points_or_missing (gdf_geometry Demo.stops) = true) as Ha
    by reflexivity.
  split; [exact Hv|]. split; [exact Hp|]. split; [exact Ha|].
  destruct (separate_points_and_gaps Demo.lib Demo.stops Hv Hp Ha)
    as [df [lon [lat [Ht _]]]].
  exists df. split; [exact Ht|].
  assert (Ok df = output_table Demo.lib true "separate" Demo.stops) as Heq
    by (now rewrite Ht).
  vm_compute in Heq. now inversion Heq.
Defined.

(** The mixed layer is the layer on which the table cannot be built. *)
Lemma table_raises_iff_mixed :
  valid_gdf Demo.mixed /\
  output_table Demo.lib true "separate" Demo.mixed = Raise only_points.
Proof.
  assert (valid_gdf Demo.mixed) as Hv by valid_layer.
  split; [exact Hv|].
  apply (table_raises_iff Demo.lib true "separate" Demo.mixed only_points Hv).
  repeat split; reflexivity.
Defined.

(** The mixed layer from the command line. *)
Lemma mixed_layer_fails_cli :
  files Demo.disk "mixed.shp" = Some (Dataset Demo.mixed) /\
  valid_gdf Demo.mixed /\
  fst (main Demo.lib (mkArgs "mixed.shp" None "separate" false) Demo.disk)
  = 1%Z /\
  files (snd (main Demo.lib (mkArgs "mixed.shp" None "separate" false)
                Demo.disk)) "mixed.csv" = None.
Proof.
  assert (files Demo.disk "mixed.shp" = Some (Dataset Demo.mixed)) as Hf
    by reflexivity.
  assert (valid_gdf Demo.mixed) as Hv by valid_layer.
  split; [exact Hf|]. split; [exact Hv|].
  destruct (mixed_layer_fails Demo.lib
              (mkArgs "mixed.shp" None "separate" false) Demo.disk
              Demo.mixed "mixed.csv" Hf Hv eq_refl eq_refl eq_refl eq_refl
              eq_refl) as [_ Hmain].
  rewrite Hmain. split; reflexivity.
Defined.

(** The table of the roads in [wkt] mode is well formed. *)
Lemma table_aligned_roads :
  valid_gdf Demo.roads /\
  exists df,
    output_table Demo.lib true "wkt" Demo.roads = Ok df /\
    index_len df = 3 /\
    Forall (fun c => List.length (cdata c) = 3) (columns df).
Proof.
  assert (valid_gdf Demo.roads) as Hv by valid_layer.
  split; [exact Hv|].
  eexists. split; [reflexivity|].
  destruct (table_aligned Demo.lib true "wkt" Demo.roads _ Hv eq_refl)
    as [Hi [_ Ha]].
  split; [exact Hi | exact Ha].
Defined.

(** The loop on a frame that holds geometries in an object column next to
    a numeric one, with the text columns of pandas 2 and with those of
    pandas 3. *)
Lemma cleanup_loop_shapes :
  NoDup ["shape"; "size"] /\
  (exists df',
     cleanup Demo.lib
       (mkFrame 2 [mkColumn "shape" "object" [VGeom (Point 1 2)%Z; VNone];
                   mkColumn "size" "float64" [VFloat 3%Z; VFloat 4%Z]])
     = Ok df' /\
     columns df'
     = [mkColumn "shape" "object" [VStr "POINT (1 2)"; VStr "None"];
        mkColumn "size" "float64" [VFloat 3%Z; VFloat 4%Z]] /\
     cleanup Demo.lib df' = Ok df') /\
  exists df',
    cleanup Demo.lib_str
      (mkFrame 2 [mkColumn "shape" "object" [VGeom (Point 1 2)%Z; VNone];
                  mkColumn "size" "float64" [VFloat 3%Z; VFloat 4%Z]])
    = Ok df' /\
    columns df'
    = [mkColumn "shape" "str" [VStr "POINT (1 2)"; VNone];
       mkColumn "size" "float64" [VFloat 3%Z; VFloat 4%Z]] /\
    cleanup Demo.lib_str df' = Ok df'.
Proof.
  assert (NoDup ["shape"; "size"]) as Hnd
    by (repeat constructor; simpl; intuition discriminate).
  split; [exact Hnd|]. split.
  - destruct (cleanup_loop Demo.lib
                (mkFrame 2 [mkColumn "shape" "object"
                              [VGeom (Point 1 2)%Z; VNone];
                            mkColumn "size" "float64"
                              [VFloat 3%Z; VFloat 4%Z]])
                Hnd) as [df' [Hc [_ [_ [_ Hi]]]]].
    exists df'. split; [exact Hc|]. split; [|exact Hi].
    vm_compute in Hc. now inversion Hc.
  - destruct (cleanup_loop Demo.lib_str
                (mkFrame 2 [mkColumn "shape" "object"
                              [VGeom (Point 1 2)%Z; VNone];
                            mkColumn "size" "float64"
                              [VFloat 3%Z; VFloat 4%Z]])
                Hnd) as [df' [Hc [_ [_ [_ Hi]]]]].
    exists df'. split; [exact Hc|]. split; [|exact Hi].
    vm_compute in Hc. now inversion Hc.
Defined.

(** The preview of the towns has three records. *)
Lemma preview_rows_towns :
  files Demo.disk "towns.shp" = Some (Dataset Demo.towns) /\
  valid_gdf Demo.towns /\
  fst (main Demo.lib (mkArgs "towns.shp" None "separate" false) Demo.disk)
  = 0%Z /\
  exists before t,
    stdout (snd (main Demo.lib (mkArgs "towns.shp" None "separate" false)
                   Demo.disk)) = before ++ [Preview t] /\
    List.length (rows t) = 3.
Proof.
  assert (files Demo.disk "towns.shp" = Some (Dataset Demo.towns)) as Hf
    by reflexivity.
  assert (valid_gdf Demo.towns) as Hv by valid_layer.
  assert (fst (main Demo.lib (mkArgs "towns.shp" None "separate" false)
                 Demo.disk) = 0%Z) as H0 by reflexivity.
  split; [exact Hf|]. split; [exact Hv|]. split; [exact H0|].
  destruct (preview_rows Demo.lib (mkArgs "towns.shp" None "separate" false)
              Demo.disk Demo.towns Hf Hv H0) as [before [t [Hs Hn]]].
  exists before, t. split; [exact Hs | exact Hn].
Defined.


(** The demonstration library gives code 4326 to its EPSG:4326. *)
Lemma crs_step_settles_towns_utm :
  to_epsg Demo.lib (wgs84 Demo.lib) = Some 4326%Z /\
  handle_crs Demo.lib (handle_crs Demo.lib Demo.towns_utm)
  = handle_crs Demo.lib Demo.towns_utm.
Proof.
  assert (to_epsg Demo.lib (wgs84 Demo.lib) = Some 4326%Z) as Hw
    by reflexivity.
  split; [exact Hw|].
  destruct (crs_step_settles Demo.lib Demo.towns_utm Hw) as [_ H]. exact H.
Defined.

(** The current directory as a source, without [-o]. *)
Lemma underivable_destination_dot :
  files Demo.office "." = Some (Dataset Demo.towns) /\
  with_suffix_csv Demo.lib_dot "." = None /\
  exists e,
    exn_kind e = ValueError /\
    fst (convert_shapefile_to_csv Demo.lib_dot "." None true "separate"
           Demo.office) = Raise e.
Proof.
  assert (files Demo.office "." = Some (Dataset Demo.towns)) as Hf
    by reflexivity.
  assert (with_suffix_csv Demo.lib_dot "." = None) as Hn by reflexivity.
  split; [exact Hf|]. split; [exact Hn|].
  destruct (underivable_destination Demo.lib_dot "." true "separate"
              Demo.office Demo.towns Hf Hn) as [e [Hk Hc]].
  exists e. split; [exact Hk|]. now rewrite Hc.
Defined.

(** The report on the towns. *)
Lemma report_matches_csv_towns :
  files Demo.disk "towns.shp" = Some (Dataset Demo.towns) /\
  valid_gdf Demo.towns /\
  exists w',
    convert_shapefile_to_csv Demo.lib "towns.shp" None true "separate"
      Demo.disk = (Ok "towns.csv", w') /\
    stdout w'
    = [Loaded 3; GeometryTypes [Some "Point"]; CrsLine (Some 4326%Z);
       Saved "towns.csv"; ShapeLine 3 3;
       ColumnsLine ["name"; "longitude"; "latitude"]].
Proof.
  assert (files Demo.disk "towns.shp" = Some (Dataset Demo.towns)) as Hf
    by reflexivity.
  assert (valid_gdf Demo.towns) as Hv by valid_layer.
  split; [exact Hf|]. split; [exact Hv|].
  eexists. split; [reflexivity|].
  destruct (report_matches_csv Demo.lib "towns.shp" None true "separate"
              Demo.disk Demo.towns "towns.csv" _ Hf Hv eq_refl)
    as [t [Ht [_ Hs]]].
  rewrite Hs. cbn [files] in Ht. inversion Ht; subst t. reflexivity.
Defined.

(** The name of a site survives [separate] mode, its longitude field does
    not. *)
Lemma attribute_kept_sites :
  valid_gdf Demo.sites /\
  In (mkAttr "name" "object" ["a"; "b"]) (gdf_attrs Demo.sites) /\
  exists df,
    output_table Demo.lib true "separate" Demo.sites = Ok df /\
    get_column "name" df
    = Some (mkColumn "name" "object" [VScalar "a"; VScalar "b"]).
Proof.
  assert (valid_gdf Demo.sites) as Hv by valid_layer.
  assert (In (mkAttr "name" "object" ["a"; "b"]) (gdf_attrs Demo.sites))
    as Hin by (simpl; tauto).
  split; [exact Hv|]. split; [exact Hin|].
  eexists. split; [reflexivity|].
  apply (attribute_kept Demo.lib true "separate" Demo.sites _
           (mkAttr "name" "object" ["a"; "b"]) Hv eq_refl Hin).
  simpl. intuition discriminate.
Defined.
